(** * Module mock generation for Expo native modules

    A shallow embedding of [expo-module-mockgen.js] (the stub generator) and
    of the SourceKitten structure reader that extracts module definitions
    from Swift files, followed by the properties established about them. *)

From Equations Require Import Equations.
From Equations.Prop Require Import Logic.
From Stdlib Require Import String Ascii List Arith Bool Lia.
Import ListNotations.

Set Implicit Arguments.
Set Warnings "-register-all".

Open Scope string_scope.

(** ** JavaScript strings

    Type names are JavaScript strings; only prefix and suffix tests,
    [substring] and equality are used on them. *)

Module Js.

Definition startsWith (s searchString : string) : bool :=
  String.prefix searchString s.

Definition endsWith (s searchString : string) : bool :=
  Nat.leb (String.length searchString) (String.length s) &&
  String.eqb (String.substring (String.length s - String.length searchString)
                               (String.length searchString) s)
             searchString.

(** [s.substring(indexStart, indexEnd)]: both indices are clamped to the
    length of [s] and swapped when they come in the wrong order. *)
Definition substring (s : string) (indexStart indexEnd : nat) : string :=
  let a := Nat.min indexStart (String.length s) in
  let b := Nat.min indexEnd (String.length s) in
  String.substring (Nat.min a b) (Nat.max a b - Nat.min a b) s.

(** A value that is a string, or else [null] / [undefined]. *)
Definition truthy (v : option string) : bool :=
  match v with
  | Some s => negb (String.eqb s "")
  | None => false
  end.

(** [v === s] for a value that is a string, [null] or [undefined]. *)
Definition strict_eq (v : option string) (s : string) : bool :=
  match v with
  | Some v => String.eqb v s
  | None => false
  end.

(** [s.replaceAll(search, '')] for a one-character [search]. *)
Fixpoint removeAll (s : string) (search : ascii) : string :=
  match s with
  | EmptyString => EmptyString
  | String c s' =>
      if Ascii.eqb c search then removeAll s' search
      else String c (removeAll s' search)
  end.

(** [xs.filter((x, idx) => f(x, idx))]. *)
Fixpoint filteri_from {A} (idx : nat) (f : A -> nat -> bool) (xs : list A)
  : list A :=
  match xs with
  | [] => []
  | x :: xs' =>
      if f x idx then x :: filteri_from (S idx) f xs'
      else filteri_from (S idx) f xs'
  end.

Definition filteri {A} (f : A -> nat -> bool) (xs : list A) : list A :=
  filteri_from 0 f xs.

(** Exceptions a JavaScript function can throw here: a property read on
    [null] or [undefined], unparsable JSON, a failed child process or
    file-system call. *)
Inductive Error : Type :=
| TypeError
| SyntaxError
| SystemError (message : string).

Inductive Completion (A : Type) : Type :=
| Normal (a : A)
| Throw (e : Error).
Arguments Throw {A} e.

Definition bind {A B} (c : Completion A) (k : A -> Completion B) : Completion B :=
  match c with
  | Normal a => k a
  | Throw e => Throw e
  end.

(** [xs.map(f)] / [xs.forEach(f)] for a callback that may throw: elements
    are visited in order and the first exception aborts the traversal. *)
Fixpoint mapM {A B} (f : A -> Completion B) (xs : list A) : Completion (list B) :=
  match xs with
  | [] => Normal []
  | x :: xs' =>
      bind (f x) (fun y => bind (mapM f xs') (fun ys => Normal (y :: ys)))
  end.

(** A traversal that threads an accumulator, as a [forEach] whose callback
    pushes onto an array declared outside of it. *)
Fixpoint foldM {A S} (f : S -> A -> Completion S) (xs : list A) (acc : S)
  : Completion S :=
  match xs with
  | [] => Normal acc
  | x :: xs' => bind (f acc x) (foldM f xs')
  end.

(** Reading a property or calling a method of [v]: a [TypeError] when [v]
    is [null] or [undefined]. *)
Definition member {A} (v : option A) : Completion A :=
  match v with
  | Some a => Normal a
  | None => Throw TypeError
  end.

(** [xs.filter((f) => !!f)] on an array with [undefined] holes. *)
Fixpoint filter_truthy {A} (xs : list (option A)) : list A :=
  match xs with
  | [] => []
  | Some a :: xs' => a :: filter_truthy xs'
  | None :: xs' => filter_truthy xs'
  end.

(** [new Set(xs)]: insertion order is kept, later duplicates are dropped. *)
Fixpoint Set_from (seen xs : list string) : list string :=
  match xs with
  | [] => []
  | x :: xs' =>
      if existsb (String.eqb x) seen then Set_from seen xs'
      else x :: Set_from (x :: seen) xs'
  end.

Definition new_Set (xs : list string) : list string := Set_from [] xs.

End Js.

Declare Scope js_scope.
Delimit Scope js_scope with js.
Notation "x <- c ;; k" := (Js.bind c (fun x => k))
  (at level 61, c at next level, right associativity) : js_scope.

(** ** The TypeScript syntax tree built through [ts.factory] *)

Module ts.

Inductive SyntaxKind : Type :=
| AnyKeyword | StringKeyword | BooleanKeyword | NumberKeyword | VoidKeyword
| ArrayType | TypeReference
| ExportKeyword | AsyncKeyword.

Definition SyntaxKind_eqb (a b : SyntaxKind) : bool :=
  match a, b with
  | AnyKeyword, AnyKeyword | StringKeyword, StringKeyword
  | BooleanKeyword, BooleanKeyword | NumberKeyword, NumberKeyword
  | VoidKeyword, VoidKeyword | ArrayType, ArrayType
  | TypeReference, TypeReference | ExportKeyword, ExportKeyword
  | AsyncKeyword, AsyncKeyword => true
  | _, _ => false
  end.

Inductive TypeNode : Type :=
| KeywordTypeNode (keyword : SyntaxKind)
| ArrayTypeNode (elementType : TypeNode)
| TypeReferenceNode (typeName : string) (typeArguments : list TypeNode).

Definition kind (t : TypeNode) : SyntaxKind :=
  match t with
  | KeywordTypeNode k => k
  | ArrayTypeNode _ => ArrayType
  | TypeReferenceNode _ _ => TypeReference
  end.

Inductive Expression : Type :=
| NullLiteral
| FalseLiteral
| StringLiteral (text : string)
| NumericLiteral (text : string)
| ArrayLiteralExpression (elements : list Expression).

Inductive Statement : Type :=
| ReturnStatement (expression : Expression).

Record Block : Type := mkBlock {
  statements : list Statement;
  multiLine : bool
}.

Record ParameterDeclaration : Type := mkParameterDeclaration {
  parameterName : option string;
  parameterType : TypeNode
}.

(** The two kinds of top-level declaration the generator emits. *)
Inductive DeclarationStatement : Type :=
| TypeAliasDeclaration (modifiers : list SyntaxKind) (name : string)
                       (type : TypeNode)
| FunctionDeclaration (modifiers : list SyntaxKind) (name : option string)
                      (parameters : list ParameterDeclaration)
                      (type : TypeNode) (body : Block).

Definition isFunctionDeclaration (d : DeclarationStatement) : bool :=
  match d with
  | FunctionDeclaration _ _ _ _ _ => true
  | TypeAliasDeclaration _ _ _ => false
  end.


Module factory.
Definition createKeywordTypeNode (k : SyntaxKind) : TypeNode := KeywordTypeNode k.
Definition createArrayTypeNode (elementType : TypeNode) : TypeNode :=
  ArrayTypeNode elementType.
Definition createTypeReferenceNode (typeName : string)
           (typeArguments : list TypeNode) : TypeNode :=
  TypeReferenceNode typeName typeArguments.
Definition createReturnStatement (e : Expression) : Statement := ReturnStatement e.
Definition createNull : Expression := NullLiteral.
Definition createFalse : Expression := FalseLiteral.
Definition createStringLiteral (text : string) : Expression := StringLiteral text.
Definition createNumericLiteral (text : string) : Expression := NumericLiteral text.
Definition createArrayLiteralExpression : Expression := ArrayLiteralExpression [].
(** [createBlock(statements, multiLine)]: the compiler's factory turns a
    missing statement list into an empty node array. *)
Definition createBlock (statements : option (list Statement))
           (multiLine : bool) : Block :=
  mkBlock (match statements with Some l => l | None => [] end) multiLine.
(** [createIdentifier(text)] reads [text.length] to escape leading
    underscores: on [null] or [undefined] it throws a [TypeError]. *)
Definition createIdentifier (text : option string) : Js.Completion string :=
  match text with
  | Some text => Js.Normal text
  | None => Js.Throw Js.TypeError
  end.
End factory.

End ts.

(** ** Module definitions, as the structure reader produces them *)

Record ParameterInfo : Type := mkParameterInfo {
  param_name : option string;
  typename : option string;   (* set for closure parameters *)
  nametype : option string    (* set for parameters read from cursor info *)
}.

Record Types : Type := mkTypes {
  parameters : option (list ParameterInfo);
  returnType : option string
}.

(** [{ name, types }]; [types] is [None] when it is [null] or [undefined]. *)
Record Declaration : Type := mkDeclaration {
  decl_name : option string;
  types : option Types
}.

Record EventDeclaration : Type := mkEvent {
  event_name : string
}.

(** The [view] key of a definition: dropped, [null], or a nested object. *)
Inductive Field (A : Type) : Type :=
| Absent
| Null
| Present (a : A).
Arguments Absent {A}.
Arguments Null {A}.

Inductive ModuleDefinition : Type := mkModuleDefinition {
  name : option string;
  functions : list Declaration;
  asyncFunctions : list Declaration;
  events : list EventDeclaration;
  properties : list Declaration;
  props : list Declaration;
  onCreate : list Declaration;
  view : Field ModuleDefinition
}.

(** ** expo-module-mockgen.js *)

Module Mockgen.
Import ts ts.factory.
Local Open Scope js_scope.

Definition isSwiftArray (type : string) : bool :=
  Js.startsWith type "[" && Js.endsWith type "]".

Definition maybeUnwrapSwiftArray (type : string) : string :=
  let isArray := Js.startsWith type "[" && Js.endsWith type "]" in
  if negb isArray then type
  else
    let innerType := Js.substring type 1 (String.length type - 1) in
    innerType.

Definition typeLength (type : option string) : nat :=
  match type with
  | Some s => String.length s
  | None => 0
  end.

Equations? mapSwiftTypeToTsType (type : option string) : TypeNode
  by wf (typeLength type) lt :=
  mapSwiftTypeToTsType None := createKeywordTypeNode VoidKeyword;
  mapSwiftTypeToTsType (Some EmptyString) := createKeywordTypeNode VoidKeyword;
  mapSwiftTypeToTsType (Some type) with inspect (isSwiftArray type) := {
    | exist _ true isArray :=
        createArrayTypeNode (mapSwiftTypeToTsType (Some (maybeUnwrapSwiftArray type)));
    | exist _ false _ :=
        if String.eqb type "unknown" then createKeywordTypeNode AnyKeyword
        else if String.eqb type "String" then createKeywordTypeNode StringKeyword
        else if String.eqb type "Bool" then createKeywordTypeNode BooleanKeyword
        else if String.eqb type "Int" || String.eqb type "Float"
                || String.eqb type "Double"
             then createKeywordTypeNode NumberKeyword
        else createTypeReferenceNode type [] }.
Proof.
  subst type. clear mapSwiftTypeToTsType.
  unfold maybeUnwrapSwiftArray. unfold isSwiftArray in isArray.
  rewrite isArray. cbn [negb].
  unfold Js.startsWith, Js.endsWith in isArray.
  destruct s as [|b s].
  - cbn [String.prefix String.length String.substring Nat.leb Nat.sub] in isArray.
    destruct (ascii_dec "[" a) as [<-|]; discriminate.
  - assert (forall n m t, String.length (String.substring n m t) <= m) as Hle.
    { clear. intros n m t; revert n m.
      induction t as [|c t IH]; intros [|n] [|m]; cbn; try lia.
      - specialize (IH 0 m). lia.
      - apply IH.
      - apply IH. }
    unfold Js.substring. cbn [typeLength].
    eapply Nat.le_lt_trans; [apply Hle|]. cbn [String.length]. lia.
Defined.

Definition getMockReturnStatements (tsReturnType : option TypeNode)
  : option (list Statement) :=
  match tsReturnType with
  | None => Some []
  | Some tsReturnType =>
      match kind tsReturnType with
      | AnyKeyword => Some [createReturnStatement createNull]
      | StringKeyword => Some [createReturnStatement (createStringLiteral "")]
      | BooleanKeyword => Some [createReturnStatement createFalse]
      | NumberKeyword => Some [createReturnStatement (createNumericLiteral "0")]
      | VoidKeyword => Some []
      | ArrayType => Some [createReturnStatement createArrayLiteralExpression]
      | _ => None   (* no case matches: the function returns undefined *)
      end
  end.

Definition wrapWithAsync (tsType : TypeNode) : TypeNode :=
  createTypeReferenceNode "Promise" [tsType].

(** The callback of [functions.map] in [getMockedFunctions]. *)
Definition mockedFunction (async : bool) (fnStructure : Declaration)
  : Js.Completion ts.DeclarationStatement :=
  name <- createIdentifier (decl_name fnStructure) ;;
  fnTypes <- Js.member (types fnStructure) ;;
  let returnType := mapSwiftTypeToTsType (returnType fnTypes) in
  fnParameters <- Js.member (parameters fnTypes) ;;
  let func :=
    FunctionDeclaration
      (Js.filter_truthy
         [Some ExportKeyword; if async then Some AsyncKeyword else None])
      (Some name)
      (map (fun p =>
              mkParameterDeclaration (param_name p)
                                     (mapSwiftTypeToTsType (typename p)))
           fnParameters)
      (if async then wrapWithAsync returnType else returnType)
      (createBlock (getMockReturnStatements (Some returnType)) true) in
  Js.Normal func.

Definition getMockedFunctions (functions : list Declaration) (async : bool)
  : Js.Completion (list ts.DeclarationStatement) :=
  Js.mapM (mockedFunction async) functions.

(** The values [Object.values(module)] ranges over. *)
Inductive ModuleValue : Type :=
| NameValue (v : option string)
| DeclarationsValue (v : list Declaration)
| EventsValue (v : list EventDeclaration)
| ViewValue (v : option ModuleDefinition).

Definition Object_values (module : ModuleDefinition) : list ModuleValue :=
  ([ NameValue (name module);
    DeclarationsValue (functions module);
    DeclarationsValue (asyncFunctions module);
    EventsValue (events module);
    DeclarationsValue (properties module);
    DeclarationsValue (props module);
    DeclarationsValue (onCreate module) ]
  ++ match view module with
     | Absent => []
     | Null => [ViewValue None]
     | Present v => [ViewValue (Some v)]
     end)%list.

(** [(t) => (Array.isArray(t) ? t?.map((t2) => t2?.types) : [] ?? [])];
    an event entry has no [types] key, so it yields [undefined]. *)
Definition typesOfValue (t : ModuleValue) : list (option Types) :=
  match t with
  | DeclarationsValue t => map (fun t2 => types t2) t
  | EventsValue t => map (fun _ => None) t
  | NameValue _ | ViewValue _ => []
  end.

Definition getTypesToMock (module : ModuleDefinition)
  : Js.Completion (list string) :=
  let foundTypes : list string := [] in
  foundTypes <-
    Js.foldM
      (fun foundTypes types =>
         types <- Js.member types ;;
         typesParameters <- Js.member (parameters types) ;;
         foundTypes <-
           Js.foldM
             (fun foundTypes p =>
                typename <- Js.member (typename p) ;;
                Js.Normal (foundTypes ++ [maybeUnwrapSwiftArray typename])%list)
             typesParameters foundTypes ;;
         Js.Normal
           (match returnType types with
            | Some returnType =>
                if Js.truthy (Some returnType)
                then (foundTypes ++ [maybeUnwrapSwiftArray returnType])%list
                else foundTypes
            | None => foundTypes
            end))
      (flat_map typesOfValue (Object_values module)) foundTypes ;;
  Js.Normal
    (Js.new_Set
       (filter (fun ft =>
                  SyntaxKind_eqb (kind (mapSwiftTypeToTsType (Some ft)))
                                 TypeReference)
               foundTypes)).

Definition getMockedTypes (types : list string) : list ts.DeclarationStatement :=
  map (fun type =>
         let name := type in
         let typeAlias :=
           TypeAliasDeclaration [ExportKeyword] name
                                (createKeywordTypeNode AnyKeyword) in
         typeAlias)
      types.

Definition getMockForModule (module : ModuleDefinition)
  : Js.Completion (list ts.DeclarationStatement) :=
  typesToMock <- getTypesToMock module ;;
  let mockedTypes := getMockedTypes typesToMock in
  mockedFunctions <- getMockedFunctions (functions module) false ;;
  mockedAsyncFunctions <- getMockedFunctions (asyncFunctions module) true ;;
  Js.Normal (mockedTypes ++ mockedFunctions ++ mockedAsyncFunctions)%list.

End Mockgen.

(** ** The structure reader

    SourceKitten, the file system and the JSON / YAML / XML libraries are
    outside of the program; the reader is parameterised over what they
    answer.  Console output is recorded as a trace of events. *)

Module IO.

Inductive Event : Type :=
| console_error (message : string) (error : Js.Error)
| console_warn (message : string)
| console_log (definition : ModuleDefinition).

(** A computation writes a trace and then returns or throws. *)
Definition t (A : Type) : Type := (list Event * Js.Completion A)%type.

Definition ret {A} (a : A) : t A := ([], Js.Normal a).

Definition bind {A B} (m : t A) (k : A -> t B) : t B :=
  match m with
  | (trace, Js.Normal a) => let (trace', r) := k a in (trace ++ trace', r)%list
  | (trace, Js.Throw e) => (trace, Js.Throw e)
  end.

Definition lift {A} (c : Js.Completion A) : t A := ([], c).

Definition emit (e : Event) : t unit := ([e], Js.Normal tt).

(** [try { body } catch (error) { handler(error) }]. *)
Definition try_catch {A} (body : t A) (handler : Js.Error -> t A) : t A :=
  match body with
  | (trace, Js.Normal a) => (trace, Js.Normal a)
  | (trace, Js.Throw e) => let (trace', r) := handler e in (trace ++ trace', r)%list
  end.

Fixpoint mapM {A B} (f : A -> t B) (xs : list A) : t (list B) :=
  match xs with
  | [] => ret []
  | x :: xs' => bind (f x) (fun y => bind (mapM f xs') (fun ys => ret (y :: ys)))
  end.

(** [for (const x of xs) { f(x) }]. *)
Fixpoint for_of {A} (xs : list A) (f : A -> t unit) : t unit :=
  match xs with
  | [] => ret tt
  | x :: xs' => bind (f x) (fun _ => for_of xs' f)
  end.

Definition trace {A} (m : t A) : list Event := fst m.
Definition result {A} (m : t A) : Js.Completion A := snd m.

End IO.

Declare Scope io_scope.
Delimit Scope io_scope with io.
Notation "x <- c ;; k" := (IO.bind c (fun x => k))
  (at level 61, c at next level, right associativity) : io_scope.
Notation "c ;; k" := (IO.bind c (fun _ => k))
  (at level 61, right associativity) : io_scope.

(** A node of the tree printed by [sourcekitten structure]. *)
Inductive Structure : Type := mkStructure {
  key_name : option string;
  key_kind : option string;
  key_typename : option string;
  key_offset : nat;
  key_length : nat;
  key_substructure : option (list Structure)
}.

Record File : Type := mkFile {
  path : string;
  content : string
}.

Fixpoint depth (structure : Structure) : nat :=
  match key_substructure structure with
  | None => 0
  | Some children => S (list_max (map depth children))
  end.

Definition depth_list (structures : list Structure) : nat :=
  list_max (map depth structures).

Module GetStructure.
Local Open Scope io_scope.

Section Reader.

(** [execSync(command)]: the output of the command, or an exception. *)
Variable execSync : string -> Js.Completion string.
(** [JSON.parse] on the output of [sourcekitten structure]; [None] is a
    parsed value that is falsy. *)
Variable JSON_parse : string -> Js.Completion (option Structure).
(** [fs.readFileSync(path, 'utf8')]. *)
Variable readFileSync : string -> Js.Completion string.
(** The body of the [try] block of [getTypeFromOffsetObject] for a file
    path and an offset: the cursor-info request sent to SourceKitten and
    its answer run through [parseXMLAnnotatedDeclarations].  A raw
    payload without annotated declaration has neither [parameters] nor
    [returnType]. *)
Variable cursorinfo : string -> nat -> Js.Completion Types.

Definition getStructureFromFile (file : File) : IO.t (option Structure) :=
  let command := "sourcekitten structure --file " ++ path file in
  IO.try_catch
    (output <- IO.lift (execSync command) ;;
     IO.lift (JSON_parse output))
    (fun error =>
       IO.emit (IO.console_error
                  "An error occurred while executing the command:" error) ;;
       IO.ret None).

Fixpoint findModuleDefinitionInNode (structure : Structure)
  : IO.t (option (list Structure)) :=
  if Js.strict_eq (key_typename structure) "ModuleDefinition" then
    let root := key_substructure structure in
    match root with
    | None => IO.emit (IO.console_warn "Found ModuleDefinition but it is malformed")
    | Some _ => IO.ret tt
    end ;;
    IO.ret root
  else
    let substructure := key_substructure structure in
    match substructure with
    | Some ((_ :: _) as substructure) =>
        (fix loop (children : list Structure) : IO.t (option (list Structure)) :=
           match children with
           | [] => IO.ret None
           | child :: children' =>
               result <- findModuleDefinitionInNode child ;;
               match result with
               | Some result => IO.ret (Some result)
               | None => loop children'
               end
           end) substructure
    | _ => IO.ret None
    end.

(** The result is the child sequence of the module definition, or
    [None] for [null] / [undefined]. *)
Definition findModuleDefinitionInStructure (structure : option Structure)
  : IO.t (option (list Structure)) :=
  match structure with
  | None => IO.ret None
  | Some structure => findModuleDefinitionInNode structure
  end.

Definition getIdentifierFromOffsetObject (offsetObject : option Structure)
           (file : File) : Js.Completion string :=
  Js.bind (Js.member offsetObject) (fun offsetObject =>
    Js.Normal
      (Js.removeAll
         (Js.substring (content file) (key_offset offsetObject)
                       (key_offset offsetObject + key_length offsetObject))
         (ascii_of_nat 34))).

Definition getTypeFromOffsetObject (offsetObject : option Structure)
           (file : File) : IO.t (option Types) :=
  match offsetObject with
  | None => IO.ret None
  | Some offsetObject =>
      IO.try_catch
        (parsed <- IO.lift (cursorinfo (path file) (key_offset offsetObject)) ;;
         IO.ret (Some parsed))
        (fun error =>
           IO.emit (IO.console_error
                      "An error occurred while executing the command:" error) ;;
           IO.ret None)
  end.

Definition hasSubstructure (structureObject : option Structure) : bool :=
  match structureObject with
  | Some structureObject =>
      match key_substructure structureObject with
      | Some substructure => Nat.ltb 0 (List.length substructure)
      | None => false
      end
  | None => false
  end.

Definition parseClosureTypes (structureObject : option Structure)
  : Js.Completion (option Types) :=
  Js.bind (Js.member structureObject) (fun structureObject =>
    let closure :=
      match key_substructure structureObject with
      | Some substructure =>
          find (fun s => Js.strict_eq (key_kind s) "source.lang.swift.expr.closure")
               substructure
      | None => None
      end in
    match closure with
    | None => Js.Normal None
    | Some closure =>
        let parameters :=
          option_map
            (fun substructure =>
               map (fun p => mkParameterInfo (key_name p) (key_typename p) None)
                   (filter (fun s => Js.strict_eq (key_kind s)
                                       "source.lang.swift.decl.var.parameter")
                           substructure))
            (key_substructure closure) in
        let returnType := "unknown" in
        Js.Normal (Some (mkTypes parameters (Some returnType)))
    end).

Definition findNamedDefinitionsOfType (type : string)
           (moduleDefinition : list Structure) (file : File)
  : IO.t (list Declaration) :=
  let definitionsOfType :=
    filter (fun md => Js.strict_eq (key_name md) type) moduleDefinition in
  IO.mapM
    (fun d =>
       definitionParams <- IO.lift (Js.member (key_substructure d)) ;;
       name <- IO.lift (getIdentifierFromOffsetObject
                          (nth_error definitionParams 0) file) ;;
       types <-
         (if hasSubstructure (nth_error definitionParams 1)
          then IO.lift (parseClosureTypes (nth_error definitionParams 1))
          else getTypeFromOffsetObject (nth_error definitionParams 1) file) ;;
       IO.ret (mkDeclaration (Some name) types))
    definitionsOfType.

Definition findUnnamedDefinitionsOfType (type : string)
           (moduleDefinition : list Structure) (file : File)
  : IO.t (list Declaration) :=
  let definitionsOfType :=
    filter (fun md => Js.strict_eq (key_name md) type) moduleDefinition in
  IO.mapM
    (fun d =>
       definitionParams <- IO.lift (Js.member (key_substructure d)) ;;
       types <-
         (if hasSubstructure (nth_error definitionParams 0)
          then IO.lift (parseClosureTypes (nth_error definitionParams 0))
          else getTypeFromOffsetObject (nth_error definitionParams 0) file) ;;
       IO.ret (mkDeclaration None types))
    definitionsOfType.

Definition findGroupedDefinitionsOfType (type : string)
           (moduleDefinition : list Structure) (file : File)
  : IO.t (list EventDeclaration) :=
  let definitionsOfType :=
    filter (fun md => Js.strict_eq (key_name md) type) moduleDefinition in
  groups <-
    IO.mapM
      (fun d =>
         definitionParams <- IO.lift (Js.member (key_substructure d)) ;;
         IO.mapM
           (fun d =>
              name <- IO.lift (getIdentifierFromOffsetObject (Some d) file) ;;
              IO.ret (mkEvent name))
           definitionParams)
      definitionsOfType ;;
  IO.ret (List.concat groups).

Definition omitViewFromTypes (definitions : list Declaration)
  : Js.Completion (list Declaration) :=
  Js.mapM
    (fun d =>
       Js.bind (Js.member (types d)) (fun dTypes =>
         Js.Normal
           (mkDeclaration
              (decl_name d)
              (Some (mkTypes
                       (option_map
                          (Js.filteri
                             (fun t idx =>
                                negb (Nat.eqb idx 0)
                                && negb (Js.strict_eq (param_name t) "view")))
                          (parameters dTypes))
                       (returnType dTypes))))))
    definitions.

(** The object literal of [parseModuleDefinition]; [parseView] stands
    for the call [findAndParseView(moduleDefinition, file)], which is
    evaluated last. *)
Definition parseModuleDefinitionWith
           (parseView : IO.t (option ModuleDefinition))
           (moduleDefinition : list Structure) (file : File)
  : IO.t ModuleDefinition :=
  names <- findNamedDefinitionsOfType "Name" moduleDefinition file ;;
  let name := match names with
              | first :: _ => decl_name first
              | [] => None
              end in
  functions <- findNamedDefinitionsOfType "Function" moduleDefinition file ;;
  asyncFunctions <- findNamedDefinitionsOfType "AsyncFunction" moduleDefinition file ;;
  events <- findGroupedDefinitionsOfType "Events" moduleDefinition file ;;
  properties <- findNamedDefinitionsOfType "Property" moduleDefinition file ;;
  propDefinitions <- findNamedDefinitionsOfType "Prop" moduleDefinition file ;;
  props <- IO.lift (omitViewFromTypes propDefinitions) ;;
  onCreate <- findUnnamedDefinitionsOfType "OnCreate" moduleDefinition file ;;
  view <- parseView ;;
  let parsedDefinition :=
    mkModuleDefinition name functions asyncFunctions events properties props
                       onCreate
                       (match view with
                        | Some view => Present view
                        | None => Null
                        end) in
  IO.ret parsedDefinition.

(** [const { view: _, ...definition } = parsed]. *)
Definition withoutView (parsed : ModuleDefinition) : ModuleDefinition :=
  mkModuleDefinition (name parsed) (functions parsed) (asyncFunctions parsed)
                     (events parsed) (properties parsed) (props parsed)
                     (onCreate parsed) Absent.

(** [a?.[i]] and [a?.['key.substructure']]. *)
Definition at_ (i : nat) (a : option (list Structure)) : option Structure :=
  match a with
  | Some a => nth_error a i
  | None => None
  end.

Definition substructure_ (s : option Structure) : option (list Structure) :=
  match s with
  | Some s => key_substructure s
  | None => None
  end.

Equations? findAndParseView (moduleDefinition : list Structure) (file : File)
  : IO.t (option ModuleDefinition) by wf (depth_list moduleDefinition) lt :=
  findAndParseView moduleDefinition file with
      inspect (find (fun md => Js.strict_eq (key_name md) "View")
                    moduleDefinition) := {
    | exist _ None _ := IO.ret None;
    | exist _ (Some viewDefinition) found with
          inspect (substructure_ (at_ 0 (substructure_ (at_ 0
                    (substructure_ (at_ 1
                      (key_substructure viewDefinition))))))) := {
        | exist _ None _ :=
            IO.emit (IO.console_warn "Could not parse view definition") ;;
            IO.ret None;
        | exist _ (Some viewModuleDefinition) resolved :=
            parsed <- parseModuleDefinitionWith
                        (findAndParseView viewModuleDefinition file)
                        viewModuleDefinition file ;;
            let definition := withoutView parsed in
            IO.ret (Some definition) } }.
Proof.
  assert (forall x l, In x l -> depth x <= depth_list l) as Hin.
  { intros x l; unfold depth_list. induction l as [|y l IH]; [intros []|].
    change (list_max (map depth (y :: l)))
      with (Nat.max (depth y) (list_max (map depth l))).
    intros [->|Hx]; [lia|]. specialize (IH Hx). lia. }
  assert (forall x l, key_substructure x = Some l -> depth_list l < depth x)
    as Hsub.
  { intros [n k t o len sub] l E. cbn in E. subst sub.
    cbn [depth key_substructure]. unfold depth_list. lia. }
  assert (forall i a x l, at_ i a = Some x -> a = Some l ->
                          depth x <= depth_list l) as Hat.
  { intros i a x l Hx ->. cbn in Hx. apply Hin. eapply nth_error_In; eauto. }
  assert (forall s l x, substructure_ s = Some l -> s = Some x ->
                        depth_list l < depth x) as Hs.
  { intros s l x Hl ->. cbn in Hl. auto. }
  apply find_some in found. destruct found as [Hview _].
  apply Hin in Hview.
  destruct (key_substructure viewDefinition) as [l1|] eqn:E1; [|discriminate].
  destruct (at_ 1 (Some l1)) as [x1|] eqn:E2; [|discriminate].
  destruct (substructure_ (Some x1)) as [l2|] eqn:E3; [|discriminate].
  destruct (at_ 0 (Some l2)) as [x2|] eqn:E4; [|discriminate].
  destruct (substructure_ (Some x2)) as [l3|] eqn:E5; [|discriminate].
  destruct (at_ 0 (Some l3)) as [x3|] eqn:E6; [|discriminate].
  pose proof (Hsub _ _ E1). pose proof (Hat _ _ _ _ E2 eq_refl).
  pose proof (Hs _ _ _ E3 eq_refl). pose proof (Hat _ _ _ _ E4 eq_refl).
  pose proof (Hs _ _ _ E5 eq_refl). pose proof (Hat _ _ _ _ E6 eq_refl).
  pose proof (Hs _ _ _ resolved eq_refl). lia.
Defined.

Definition parseModuleDefinition (moduleDefinition : list Structure)
           (file : File) : IO.t ModuleDefinition :=
  parseModuleDefinitionWith (findAndParseView moduleDefinition file)
                            moduleDefinition file.

Definition findModuleDefinitionsInFiles (files : list string) : IO.t unit :=
  IO.for_of files (fun path =>
    fileContent <- IO.lift (readFileSync path) ;;
    let file := mkFile path fileContent in
    structure <- getStructureFromFile file ;;
    definition <- findModuleDefinitionInStructure structure ;;
    match definition with
    | Some definition =>
        parsed <- parseModuleDefinition definition file ;;
        IO.emit (IO.console_log parsed)
    | None => IO.ret tt
    end).

End Reader.

End GetStructure.

(** * Properties *)

(** ** Strings *)

Module StringFacts.

Lemma length_app (s t : string) :
  String.length (s ++ t) = String.length s + String.length t.
Proof. induction s as [|c s IH]; cbn; [reflexivity | now rewrite IH]. Qed.

Lemma substring_prefix_app (s t : string) :
  String.substring 0 (String.length s) (s ++ t) = s.
Proof. induction s as [|c s IH]; cbn; [now destruct t | now rewrite IH]. Qed.

Lemma substring_suffix_app (s t : string) :
  String.substring (String.length s) (String.length t) (s ++ t) = t.
Proof.
  induction s as [|c s IH]; cbn; [|exact IH].
  induction t as [|c t IH]; cbn; [reflexivity | now rewrite IH].
Qed.

Lemma startsWith_bracket (s : string) : Js.startsWith ("[" ++ s) "[" = true.
Proof.
  unfold Js.startsWith. cbn [append String.prefix].
  destruct (ascii_dec "[" "[") as [_|ne]; [now destruct s | now elim ne].
Qed.

Lemma endsWith_app (s t : string) : Js.endsWith (s ++ t) t = true.
Proof.
  unfold Js.endsWith. rewrite length_app.
  replace (String.length s + String.length t - String.length t)
    with (String.length s) by lia.
  rewrite substring_suffix_app, String.eqb_refl, andb_true_r.
  apply Nat.leb_le. lia.
Qed.

Lemma substring_inner (s : string) :
  Js.substring ("[" ++ s ++ "]") 1 (String.length ("[" ++ s ++ "]") - 1) = s.
Proof.
  unfold Js.substring. cbn [append String.length].
  rewrite length_app. cbn [String.length].
  rewrite Nat.sub_succ, Nat.sub_0_r.
  rewrite (Nat.min_l 1), (Nat.min_l (String.length s + 1)) by lia.
  rewrite Nat.min_l, Nat.max_r by lia.
  replace (String.length s + 1 - 1) with (String.length s) by lia.
  cbn [String.substring]. apply substring_prefix_app.
Qed.

Lemma endsWith_inv (s : string) :
  Js.endsWith s "]" = true -> exists x, s = x ++ "]".
Proof.
  unfold Js.endsWith. cbn [String.length].
  induction s as [|c s IH]; [discriminate|].
  destruct s as [|c' s'].
  - intros H. apply andb_true_iff in H. destruct H as [_ H].
    cbn [String.length Nat.sub String.substring] in H.
    apply String.eqb_eq in H. exists "". exact H.
  - intros H. destruct IH as [x ->].
    + apply andb_true_iff in H. destruct H as [_ H].
      apply andb_true_iff. split; [reflexivity|].
      cbn [String.length] in *.
      rewrite Nat.sub_succ, Nat.sub_0_r in *. exact H.
    + exists (String c x). reflexivity.
Qed.

Lemma startsWith_inv (s : string) :
  Js.startsWith s "[" = true -> exists x, s = "[" ++ x.
Proof.
  unfold Js.startsWith. destruct s as [|c s]; [discriminate|].
  cbn [String.prefix]. destruct (ascii_dec "[" c) as [<-|]; [|discriminate].
  intros _. exists s. reflexivity.
Qed.

End StringFacts.

(** ** The type mapper *)

Module TypeMapperFacts.
Import ts ts.factory Mockgen.

(** The body of the [switch] of [mapSwiftTypeToTsType]. *)
Definition mapSwiftTypeName (type : string) : TypeNode :=
  if String.eqb type "unknown" then KeywordTypeNode AnyKeyword
  else if String.eqb type "String" then KeywordTypeNode StringKeyword
  else if String.eqb type "Bool" then KeywordTypeNode BooleanKeyword
  else if String.eqb type "Int" || String.eqb type "Float"
          || String.eqb type "Double"
       then KeywordTypeNode NumberKeyword
  else TypeReferenceNode type [].

(** ['[' + t + ']']. *)
Definition bracketed (t : string) : string := "[" ++ t ++ "]".

Lemma mapSwiftTypeToTsType_unfold (type : option string) :
  mapSwiftTypeToTsType type =
  if negb (Js.truthy type) then KeywordTypeNode VoidKeyword
  else match type with
       | Some type =>
           if isSwiftArray type
           then ArrayTypeNode (mapSwiftTypeToTsType (Some (maybeUnwrapSwiftArray type)))
           else mapSwiftTypeName type
       | None => KeywordTypeNode VoidKeyword
       end.
Proof.
  funelim (mapSwiftTypeToTsType type); cbn [Js.truthy negb String.eqb].
  - reflexivity.
  - reflexivity.
  - rewrite isArray. reflexivity.
  - rewrite e. reflexivity.
Qed.

Lemma isSwiftArray_bracketed (t : string) : isSwiftArray ("[" ++ t ++ "]") = true.
Proof.
  unfold isSwiftArray. rewrite StringFacts.startsWith_bracket.
  change ("[" ++ t ++ "]") with (("[" ++ t) ++ "]").
  now rewrite StringFacts.endsWith_app.
Qed.

Lemma maybeUnwrapSwiftArray_bracketed (t : string) :
  maybeUnwrapSwiftArray ("[" ++ t ++ "]") = t.
Proof.
  unfold maybeUnwrapSwiftArray. fold (isSwiftArray ("[" ++ t ++ "]")).
  rewrite isSwiftArray_bracketed. cbn [negb].
  apply StringFacts.substring_inner.
Qed.

Lemma isSwiftArray_inv (s : string) :
  isSwiftArray s = true -> exists t, s = "[" ++ t ++ "]".
Proof.
  unfold isSwiftArray. intros H. apply andb_true_iff in H. destruct H as [Hs He].
  apply StringFacts.endsWith_inv in He. destruct He as [x ->].
  apply StringFacts.startsWith_inv in Hs. destruct Hs as [y Hy].
  destruct x as [|c x].
  - cbn in Hy. discriminate.
  - cbn in Hy. injection Hy as -> _. exists x. reflexivity.
Qed.

Lemma mapSwiftTypeToTsType_bracketed (t : string) :
  mapSwiftTypeToTsType (Some ("[" ++ t ++ "]")) =
  ArrayTypeNode (mapSwiftTypeToTsType (Some t)).
Proof.
  rewrite mapSwiftTypeToTsType_unfold.
  rewrite isSwiftArray_bracketed, maybeUnwrapSwiftArray_bracketed.
  reflexivity.
Qed.

(** C3. Mapping a type name put between brackets gives the array of the
    mapping of the name; unwrapping removes exactly the one bracket pair
    that wrapping added, so the same holds for any number of bracket
    pairs. *)
Theorem array_wrapping_is_structural :
  (forall t : string,
      mapSwiftTypeToTsType (Some ("[" ++ t ++ "]")) =
      ArrayTypeNode (mapSwiftTypeToTsType (Some t)))
  /\ (forall t : string, maybeUnwrapSwiftArray ("[" ++ t ++ "]") = t)
  /\ (forall (n : nat) (t : string),
        mapSwiftTypeToTsType (Some (Nat.iter n bracketed t)) =
        Nat.iter n ArrayTypeNode (mapSwiftTypeToTsType (Some t))).
Proof.
  split; [exact mapSwiftTypeToTsType_bracketed|].
  split; [exact maybeUnwrapSwiftArray_bracketed|].
  induction n as [|n IH]; intros t; [reflexivity|].
  rewrite !Nat.iter_succ. unfold bracketed at 1.
  rewrite mapSwiftTypeToTsType_bracketed. now rewrite IH.
Qed.

(** [TypeMapper.map] as the specification words it: absent or empty names
    are [Void], a bracketed name is the array of its inner name, the
    primitive names and the unknown marker have their keyword, and any
    other name is a reference to itself. *)
Inductive TypeMapper_map : option string -> TypeNode -> Prop :=
| map_null : TypeMapper_map None (KeywordTypeNode VoidKeyword)
| map_empty : TypeMapper_map (Some "") (KeywordTypeNode VoidKeyword)
| map_bracketed (x : string) (d : TypeNode) :
    TypeMapper_map (Some x) d ->
    TypeMapper_map (Some ("[" ++ x ++ "]")) (ArrayTypeNode d)
| map_String : TypeMapper_map (Some "String") (KeywordTypeNode StringKeyword)
| map_Bool : TypeMapper_map (Some "Bool") (KeywordTypeNode BooleanKeyword)
| map_Int : TypeMapper_map (Some "Int") (KeywordTypeNode NumberKeyword)
| map_Float : TypeMapper_map (Some "Float") (KeywordTypeNode NumberKeyword)
| map_Double : TypeMapper_map (Some "Double") (KeywordTypeNode NumberKeyword)
| map_unknown : TypeMapper_map (Some "unknown") (KeywordTypeNode AnyKeyword)
| map_reference (name : string) :
    name <> "" ->
    (forall x, name <> "[" ++ x ++ "]") ->
    ~ In name ["String"; "Bool"; "Int"; "Float"; "Double"; "unknown"] ->
    TypeMapper_map (Some name) (TypeReferenceNode name []).

Lemma mapSwiftTypeName_spec (type : string) :
  type <> "" -> isSwiftArray type = false ->
  TypeMapper_map (Some type) (mapSwiftTypeName type).
Proof.
  intros Hne Harr. unfold mapSwiftTypeName.
  destruct (String.eqb_spec type "unknown") as [->|H1]; [constructor|].
  destruct (String.eqb_spec type "String") as [->|H2]; [constructor|].
  destruct (String.eqb_spec type "Bool") as [->|H3]; [constructor|].
  destruct (String.eqb_spec type "Int") as [->|H4]; [constructor|].
  destruct (String.eqb_spec type "Float") as [->|H5]; [constructor|].
  destruct (String.eqb_spec type "Double") as [->|H6]; [constructor|].
  cbn [orb]. apply map_reference; [assumption| |].
  - intros x ->. rewrite isSwiftArray_bracketed in Harr. discriminate.
  - cbn [In]. intuition congruence.
Qed.

Lemma TypeMapper_map_complete (type : option string) :
  TypeMapper_map type (mapSwiftTypeToTsType type).
Proof.
  funelim (mapSwiftTypeToTsType type).
  - constructor.
  - constructor.
  - match goal with
    | IH : TypeMapper_map _ (mapSwiftTypeToTsType _) |- _ => revert IH
    end.
    destruct (isSwiftArray_inv _ isArray) as [t ->].
    rewrite maybeUnwrapSwiftArray_bracketed. intros IH.
    apply map_bracketed. exact IH.
  - apply (mapSwiftTypeName_spec (type := String a s)); [discriminate | assumption].
Qed.

Lemma TypeMapper_map_sound (type : option string) (d : TypeNode) :
  TypeMapper_map type d -> d = mapSwiftTypeToTsType type.
Proof.
  induction 1 as [| |x d _ IH| | | | | | |name Hne Hbr Hin];
    try reflexivity.
  - rewrite mapSwiftTypeToTsType_bracketed. now rewrite IH.
  - rewrite mapSwiftTypeToTsType_unfold.
    assert (Js.truthy (Some name) = true) as ->.
    { cbn. now destruct (String.eqb_spec name ""). }
    assert (isSwiftArray name = false) as ->.
    { destruct (isSwiftArray name) eqn:E; [|reflexivity].
      destruct (isSwiftArray_inv _ E) as [x Hx]. now elim (Hbr x). }
    cbn [negb In] in *. unfold mapSwiftTypeName.
    repeat match goal with
           | |- context [String.eqb name ?s] =>
               destruct (String.eqb_spec name s); [exfalso; intuition congruence|]
           end.
    reflexivity.
Qed.

(** C4. [mapSwiftTypeToTsType] is a total function, and its one result for
    every input is the one the specification of [TypeMapper.map]
    describes: [Void] for a null or empty name, the array of the mapped
    inner name for a bracketed name, the keyword of a primitive name or of
    the unknown marker, and a reference to the name otherwise. *)
Theorem mapSwiftTypeToTsType_total (type : option string) :
  TypeMapper_map type (mapSwiftTypeToTsType type)
  /\ (forall d : TypeNode,
        TypeMapper_map type d -> d = mapSwiftTypeToTsType type).
Proof.
  split; [apply TypeMapper_map_complete | apply TypeMapper_map_sound].
Qed.

Lemma mapSwiftTypeToTsType_total_witness :
  TypeMapper_map (Some "[Int]") (ArrayTypeNode (KeywordTypeNode NumberKeyword))
  /\ ArrayTypeNode (KeywordTypeNode NumberKeyword)
     = mapSwiftTypeToTsType (Some "[Int]").
Proof.
  assert (TypeMapper_map (Some "[Int]")
                         (ArrayTypeNode (KeywordTypeNode NumberKeyword))) as H.
  { apply (map_bracketed (x := "Int")). constructor. }
  split; [exact H|].
  exact (proj2 (mapSwiftTypeToTsType_total (Some "[Int]")) _ H).
Defined.

End TypeMapperFacts.

(** ** The stub generator *)

Module StubFacts.
Import ts ts.factory Mockgen.
Local Open Scope js_scope.

(** Reading a generated declaration back. *)
Definition stubName (d : DeclarationStatement) : option string :=
  match d with
  | FunctionDeclaration _ name _ _ _ => name
  | TypeAliasDeclaration _ name _ => Some name
  end.

Definition stubModifiers (d : DeclarationStatement) : list SyntaxKind :=
  match d with
  | FunctionDeclaration modifiers _ _ _ _ => modifiers
  | TypeAliasDeclaration modifiers _ _ => modifiers
  end.

Definition stubType (d : DeclarationStatement) : TypeNode :=
  match d with
  | FunctionDeclaration _ _ _ type _ => type
  | TypeAliasDeclaration _ _ type => type
  end.

Definition stubBody (d : DeclarationStatement) : list Statement :=
  match d with
  | FunctionDeclaration _ _ _ _ body => statements body
  | TypeAliasDeclaration _ _ _ => []
  end.

Definition isAsync (d : DeclarationStatement) : bool :=
  existsb (SyntaxKind_eqb AsyncKeyword) (stubModifiers d).

(** The return type a declaration maps to; [Void] when it has no types. *)
Definition mappedReturnType (fnStructure : Declaration) : TypeNode :=
  mapSwiftTypeToTsType
    (match types fnStructure with
     | Some t => returnType t
     | None => None
     end).

Lemma mapM_Forall2 {A B} (f : A -> Js.Completion B) (xs : list A) (ys : list B) :
  Js.mapM f xs = Js.Normal ys <-> Forall2 (fun x y => f x = Js.Normal y) xs ys.
Proof.
  revert ys. induction xs as [|x xs IH]; intros ys; cbn.
  - split.
    + intros [= <-]. constructor.
    + intros H. inversion H. reflexivity.
  - destruct (f x) as [y|e] eqn:Ex; cbn.
    + destruct (Js.mapM f xs) as [ys'|e] eqn:Exs; cbn.
      * split.
        -- intros [= <-]. constructor; [assumption|]. now apply IH.
        -- intros H. inversion H as [|? y0 ? ys0 Hy Hys]; subst.
           apply IH in Hys. congruence.
      * split; [discriminate|].
        intros H. inversion H as [|? y0 ? ys0 Hy Hys]; subst.
        apply IH in Hys. discriminate.
    + split; [discriminate|].
      intros H. inversion H; subst. congruence.
Qed.

Lemma mockedFunction_Normal (async : bool) (fnStructure : Declaration)
      (stub : DeclarationStatement) :
  mockedFunction async fnStructure = Js.Normal stub ->
  exists fnTypes fnParameters,
    types fnStructure = Some fnTypes
    /\ parameters fnTypes = Some fnParameters
    /\ stub =
       FunctionDeclaration
         (if async then [ExportKeyword; AsyncKeyword] else [ExportKeyword])
         (decl_name fnStructure)
         (map (fun p => mkParameterDeclaration
                          (param_name p) (mapSwiftTypeToTsType (typename p)))
              fnParameters)
         (if async
          then wrapWithAsync (mapSwiftTypeToTsType (returnType fnTypes))
          else mapSwiftTypeToTsType (returnType fnTypes))
         (createBlock
            (getMockReturnStatements
               (Some (mapSwiftTypeToTsType (returnType fnTypes)))) true).
Proof.
  unfold mockedFunction.
  destruct (decl_name fnStructure) as [name|]; cbn; [|discriminate].
  destruct (types fnStructure) as [fnTypes|]; cbn; [|discriminate].
  destruct (parameters fnTypes) as [fnParameters|] eqn:E; cbn; [|discriminate].
  intros [= <-]. exists fnTypes, fnParameters.
  destruct async; repeat split; assumption.
Qed.

Lemma mockedFunction_named (async : bool) (fnStructure : Declaration)
      (stub : DeclarationStatement) :
  mockedFunction async fnStructure = Js.Normal stub ->
  exists name, decl_name fnStructure = Some name.
Proof.
  unfold mockedFunction.
  destruct (decl_name fnStructure) as [name|]; cbn; [|discriminate].
  intros _. now exists name.
Qed.

(** C1. A declaration whose return type maps to a type reference gets a
    stub without any return statement: no case of
    [getMockReturnStatements] matches a reference, so the function
    returns [undefined] and the body is empty, where the stub-value table
    asks for [return null]. *)
Theorem reference_return_type_has_no_return_statement :
  mapSwiftTypeToTsType (Some "User") = TypeReferenceNode "User" []
  /\ (forall typeName typeArguments,
        getMockReturnStatements (Some (TypeReferenceNode typeName typeArguments))
        = None)
  /\ getMockedFunctions
       [mkDeclaration (Some "fetchUser") (Some (mkTypes (Some []) (Some "User")))]
       false
     = Js.Normal [FunctionDeclaration [ExportKeyword] (Some "fetchUser") []
                                      (TypeReferenceNode "User" [])
                                      (mkBlock [] true)].
Proof. repeat split. Qed.

(** The rows of the stub-value table that the code does implement. *)
Lemma getMockReturnStatements_table (t : TypeNode) :
  match kind t with
  | AnyKeyword =>
      getMockReturnStatements (Some t) = Some [ReturnStatement NullLiteral]
  | StringKeyword =>
      getMockReturnStatements (Some t) = Some [ReturnStatement (StringLiteral "")]
  | BooleanKeyword =>
      getMockReturnStatements (Some t) = Some [ReturnStatement FalseLiteral]
  | NumberKeyword =>
      getMockReturnStatements (Some t) = Some [ReturnStatement (NumericLiteral "0")]
  | VoidKeyword => getMockReturnStatements (Some t) = Some []
  | ArrayType =>
      getMockReturnStatements (Some t)
      = Some [ReturnStatement (ArrayLiteralExpression [])]
  | _ => getMockReturnStatements (Some t) = None
  end.
Proof. unfold getMockReturnStatements. destruct (kind t); reflexivity. Qed.

Lemma mappedReturnType_eq (fnStructure : Declaration) (fnTypes : Types) :
  types fnStructure = Some fnTypes ->
  mappedReturnType fnStructure = mapSwiftTypeToTsType (returnType fnTypes).
Proof. unfold mappedReturnType. now intros ->. Qed.

(** C2. In every stub that [getMockedFunctions] generates, a [Void]
    return type gives a body with no return statement, and a string,
    boolean or numeric return type gives a body that is exactly one return
    statement, of the empty string, [false] and [0] respectively. *)
Theorem void_and_primitive_return_statements
        (functions : list Declaration) (async : bool)
        (stubs : list DeclarationStatement) :
  getMockedFunctions functions async = Js.Normal stubs ->
  Forall2
    (fun fnStructure stub =>
       match kind (mappedReturnType fnStructure) with
       | VoidKeyword => stubBody stub = []
       | StringKeyword => stubBody stub = [ReturnStatement (StringLiteral "")]
       | BooleanKeyword => stubBody stub = [ReturnStatement FalseLiteral]
       | NumberKeyword => stubBody stub = [ReturnStatement (NumericLiteral "0")]
       | _ => True
       end)
    functions stubs.
Proof.
  unfold getMockedFunctions. intros H. apply mapM_Forall2 in H.
  induction H as [|fnStructure stub functions stubs Hstub _ IH];
    constructor; [|exact IH].
  apply mockedFunction_Normal in Hstub.
  destruct Hstub as (fnTypes & fnParameters & Ht & _ & ->).
  rewrite (mappedReturnType_eq _ Ht). cbn [stubBody].
  pose proof (getMockReturnStatements_table
                (mapSwiftTypeToTsType (returnType fnTypes))) as Htable.
  destruct (kind (mapSwiftTypeToTsType (returnType fnTypes)));
    try exact I; rewrite Htable; reflexivity.
Qed.

(** Scenario A: [add(a: Int, b: Int) -> Int]. *)
Definition scenarioA : Declaration :=
  mkDeclaration (Some "add")
    (Some (mkTypes (Some [mkParameterInfo (Some "a") (Some "Int") None;
                          mkParameterInfo (Some "b") (Some "Int") None])
                   (Some "Int"))).

Definition scenarioA_stub : DeclarationStatement :=
  FunctionDeclaration
    [ExportKeyword] (Some "add")
    [mkParameterDeclaration (Some "a") (KeywordTypeNode NumberKeyword);
     mkParameterDeclaration (Some "b") (KeywordTypeNode NumberKeyword)]
    (KeywordTypeNode NumberKeyword)
    (mkBlock [ReturnStatement (NumericLiteral "0")] true).

Lemma void_and_primitive_return_statements_witness :
  getMockedFunctions [scenarioA] false = Js.Normal [scenarioA_stub]
  /\ Forall2
       (fun fnStructure stub =>
          match kind (mappedReturnType fnStructure) with
          | VoidKeyword => stubBody stub = []
          | StringKeyword => stubBody stub = [ReturnStatement (StringLiteral "")]
          | BooleanKeyword => stubBody stub = [ReturnStatement FalseLiteral]
          | NumberKeyword => stubBody stub = [ReturnStatement (NumericLiteral "0")]
          | _ => True
          end)
       [scenarioA] [scenarioA_stub].
Proof.
  split; [reflexivity|].
  apply (@void_and_primitive_return_statements [scenarioA] false [scenarioA_stub]).
  reflexivity.
Defined.

(** C7. The stub of an async function differs from the stub the same
    declaration gets as a synchronous function only in its [async]
    modifier and in its declared return type, which is the mapped return
    type inside [Promise]; the body, and so the literal returned, is the
    same. *)
Theorem async_stub_wraps_return_type_only
        (functions : list Declaration)
        (asyncStubs : list DeclarationStatement) :
  getMockedFunctions functions true = Js.Normal asyncStubs ->
  exists syncStubs : list DeclarationStatement,
    getMockedFunctions functions false = Js.Normal syncStubs
    /\ Forall2 (fun fnStructure syncStub =>
                  stubType syncStub = mappedReturnType fnStructure
                  /\ stubBody syncStub =
                     statements
                       (createBlock
                          (getMockReturnStatements
                             (Some (mappedReturnType fnStructure))) true))
               functions syncStubs
    /\ Forall2 (fun asyncStub syncStub =>
                  stubType asyncStub
                  = TypeReferenceNode "Promise" [stubType syncStub]
                  /\ stubBody asyncStub = stubBody syncStub
                  /\ stubName asyncStub = stubName syncStub
                  /\ isAsync asyncStub = true
                  /\ isAsync syncStub = false)
               asyncStubs syncStubs.
Proof.
  unfold getMockedFunctions. intros H. apply mapM_Forall2 in H.
  induction H as [|fnStructure stub functions stubs Hstub _ IH].
  - exists []. repeat split; constructor.
  - destruct IH as (syncStubs & Hsync & Hmapped & Hpair).
    destruct (mockedFunction_named _ _ Hstub) as [name Hname].
    apply mockedFunction_Normal in Hstub.
    destruct Hstub as (fnTypes & fnParameters & Ht & Hp & ->).
    eexists (_ :: syncStubs). cbn [Js.mapM].
    unfold mockedFunction at 1. rewrite Hname, Ht.
    cbn [createIdentifier Js.member Js.bind].
    rewrite Hp. cbn [Js.member Js.bind].
    rewrite Hsync. cbn [Js.bind]. split; [reflexivity|].
    rewrite <- (mappedReturnType_eq _ Ht).
    split; constructor; try assumption; repeat split.
Qed.

(** Scenario B: [fetchName() -> String] as an async function. *)
Lemma async_stub_wraps_return_type_only_witness :
  exists syncStubs : list DeclarationStatement,
    getMockedFunctions
      [mkDeclaration (Some "fetchName") (Some (mkTypes (Some []) (Some "String")))]
      false = Js.Normal syncStubs
    /\ Forall2 (fun asyncStub syncStub =>
                  stubType asyncStub
                  = TypeReferenceNode "Promise" [stubType syncStub]
                  /\ stubBody asyncStub = stubBody syncStub
                  /\ stubName asyncStub = stubName syncStub
                  /\ isAsync asyncStub = true
                  /\ isAsync syncStub = false)
               [FunctionDeclaration
                  [ExportKeyword; AsyncKeyword] (Some "fetchName") []
                  (TypeReferenceNode "Promise" [KeywordTypeNode StringKeyword])
                  (mkBlock [ReturnStatement (StringLiteral "")] true)]
               syncStubs.
Proof.
  destruct (@async_stub_wraps_return_type_only
              [mkDeclaration (Some "fetchName")
                             (Some (mkTypes (Some []) (Some "String")))]
              [FunctionDeclaration
                 [ExportKeyword; AsyncKeyword] (Some "fetchName") []
                 (TypeReferenceNode "Promise" [KeywordTypeNode StringKeyword])
                 (mkBlock [ReturnStatement (StringLiteral "")] true)]
              eq_refl) as (syncStubs & Hsync & _ & Hpair).
  exists syncStubs. split; assumption.
Defined.

End StubFacts.

(** ** Collecting the types to alias, and the module output *)

Module ModuleFacts.
Import ts ts.factory Mockgen StubFacts.
Local Open Scope js_scope.

(** The callbacks of the two [forEach] loops of [getTypesToMock]. *)
Definition pushParameter (foundTypes : list string) (p : ParameterInfo)
  : Js.Completion (list string) :=
  typename <- Js.member (typename p) ;;
  Js.Normal (foundTypes ++ [maybeUnwrapSwiftArray typename])%list.

Definition pushTypes (foundTypes : list string) (types : option Types)
  : Js.Completion (list string) :=
  types <- Js.member types ;;
  typesParameters <- Js.member (parameters types) ;;
  foundTypes <- Js.foldM pushParameter typesParameters foundTypes ;;
  Js.Normal
    (match returnType types with
     | Some returnType =>
         if Js.truthy (Some returnType)
         then (foundTypes ++ [maybeUnwrapSwiftArray returnType])%list
         else foundTypes
     | None => foundTypes
     end).

(** Every [types] value the outer loop visits, in order. *)
Definition visitedTypes (module : ModuleDefinition) : list (option Types) :=
  (map types (functions module) ++ map types (asyncFunctions module)
   ++ map (fun _ => None) (events module)
   ++ map types (properties module) ++ map types (props module)
   ++ map types (onCreate module))%list.

Lemma getTypesToMock_eq (module : ModuleDefinition) :
  getTypesToMock module =
  (foundTypes <- Js.foldM pushTypes (visitedTypes module) [] ;;
   Js.Normal
     (Js.new_Set
        (filter (fun ft => SyntaxKind_eqb (kind (mapSwiftTypeToTsType (Some ft)))
                                          TypeReference)
                foundTypes))).
Proof.
  unfold getTypesToMock, visitedTypes, Object_values.
  cbn [flat_map typesOfValue app].
  replace (flat_map typesOfValue
             match view module with
             | Absent => []
             | Null => [ViewValue None]
             | Present v => [ViewValue (Some v)]
             end) with (@nil (option Types)) by now destruct (view module).
  rewrite !app_nil_r. reflexivity.
Qed.

Lemma pushParameter_throws (l : list ParameterInfo) (acc : list string) (e : Js.Error) :
  Js.foldM pushParameter l acc = Js.Throw e -> e = Js.TypeError.
Proof.
  revert acc. induction l as [|p l IH]; intros acc; cbn; [discriminate|].
  unfold pushParameter at 1.
  destruct (typename p); cbn; [apply IH | now intros [= <-]].
Qed.

Lemma pushTypes_throws (acc : list string) (t : option Types) (e : Js.Error) :
  pushTypes acc t = Js.Throw e -> e = Js.TypeError.
Proof.
  unfold pushTypes. destruct t as [t|]; cbn; [|now intros [= <-]].
  destruct (parameters t) as [ps|]; cbn; [|now intros [= <-]].
  destruct (Js.foldM pushParameter ps acc) eqn:E; cbn; [discriminate|].
  intros [= <-]. eapply pushParameter_throws; eassumption.
Qed.

Lemma foldM_pushTypes_None (l : list (option Types)) (acc : list string) :
  In None l -> Js.foldM pushTypes l acc = Js.Throw Js.TypeError.
Proof.
  revert acc. induction l as [|t l IH]; intros acc; [intros []|].
  intros [->|Hin]; [reflexivity|]. cbn [Js.foldM].
  destruct (pushTypes acc t) as [acc'|e] eqn:E; cbn.
  - now apply IH.
  - now rewrite (pushTypes_throws _ _ E).
Qed.

(** Any event, and any declaration without types, makes [getTypesToMock]
    throw. *)
Lemma getTypesToMock_throws (module : ModuleDefinition) :
  events module <> []
  \/ (exists d, In d (functions module ++ asyncFunctions module
                      ++ properties module ++ props module
                      ++ onCreate module)%list
                /\ types d = None) ->
  getTypesToMock module = Js.Throw Js.TypeError.
Proof.
  intros H. rewrite getTypesToMock_eq.
  rewrite foldM_pushTypes_None; [reflexivity|].
  unfold visitedTypes. rewrite !in_app_iff.
  destruct H as [Hev|(d & Hd & Hnone)].
  - destruct (events module) as [|ev evs]; [congruence|].
    right; right; left. now left.
  - rewrite !in_app_iff in Hd. rewrite <- Hnone.
    destruct Hd as [Hd|[Hd|[Hd|[Hd|Hd]]]];
      apply (in_map types) in Hd; tauto.
Qed.

(** A module with one event and nothing else. *)
Definition moduleWithEvent : ModuleDefinition :=
  mkModuleDefinition (Some "Clipboard") [] [] [mkEvent "onChange"] [] [] [] Null.

(** A module with one function whose type lookup failed. *)
Definition moduleWithUnresolvedFunction : ModuleDefinition :=
  mkModuleDefinition (Some "Clipboard") [mkDeclaration (Some "getString") None]
                     [] [] [] [] [] Null.

(** The type names one [types] value contributes when nothing throws. *)
Definition rawTypeNames (t : Types) : list string :=
  (match parameters t with
   | Some ps =>
       flat_map (fun p => match typename p with Some s => [s] | None => [] end) ps
   | None => []
   end
   ++ match returnType t with
      | Some r => if Js.truthy (Some r) then [r] else []
      | None => []
      end)%list.

Lemma foldM_pushParameter_Normal (ps : list ParameterInfo) (acc r : list string) :
  Js.foldM pushParameter ps acc = Js.Normal r ->
  r = (acc ++ map maybeUnwrapSwiftArray
                 (flat_map (fun p => match typename p with
                                     | Some s => [s]
                                     | None => []
                                     end) ps))%list.
Proof.
  revert acc. induction ps as [|p ps IH]; intros acc; cbn.
  - intros [= <-]. now rewrite app_nil_r.
  - unfold pushParameter at 1. destruct (typename p) as [s|]; cbn; [|discriminate].
    intros H. apply IH in H. now rewrite <- app_assoc in H.
Qed.

Lemma pushTypes_Normal (acc r : list string) (t : option Types) :
  pushTypes acc t = Js.Normal r ->
  exists ty, t = Some ty
             /\ r = (acc ++ map maybeUnwrapSwiftArray (rawTypeNames ty))%list.
Proof.
  unfold pushTypes.
  destruct t as [ty|]; cbn [Js.member Js.bind]; [|discriminate].
  destruct (parameters ty) as [ps|] eqn:Hps; cbn [Js.member Js.bind];
    [|discriminate].
  destruct (Js.foldM pushParameter ps acc) as [r'|] eqn:E;
    cbn [Js.bind]; [|discriminate].
  apply foldM_pushParameter_Normal in E. subst r'.
  intros H. exists ty. split; [reflexivity|].
  unfold rawTypeNames. rewrite Hps, map_app, app_assoc.
  destruct (returnType ty) as [rt|].
  - destruct (Js.truthy (Some rt)); injection H as <-; cbn [map];
      now rewrite ?app_nil_r.
  - injection H as <-. cbn [map]. now rewrite app_nil_r.
Qed.

Lemma foldM_pushTypes_Normal (l : list (option Types)) (acc r : list string) :
  Js.foldM pushTypes l acc = Js.Normal r ->
  exists tys, l = map Some tys
              /\ r = (acc ++ map maybeUnwrapSwiftArray
                                 (flat_map rawTypeNames tys))%list.
Proof.
  revert acc. induction l as [|t l IH]; intros acc; cbn.
  - intros [= <-]. exists []. now rewrite app_nil_r.
  - destruct (pushTypes acc t) as [acc'|] eqn:E; cbn; [|discriminate].
    apply pushTypes_Normal in E. destruct E as (ty & -> & ->).
    intros H. apply IH in H. destruct H as (tys & -> & ->).
    exists (ty :: tys). split; [reflexivity|].
    cbn [flat_map]. now rewrite map_app, <- app_assoc.
Qed.

Lemma Set_from_spec (seen xs : list string) (x : string) :
  In x (Js.Set_from seen xs) <-> In x xs /\ ~ In x seen.
Proof.
  revert seen. induction xs as [|y xs IH]; intros seen; cbn; [tauto|].
  destruct (existsb (String.eqb y) seen) eqn:E.
  - rewrite IH. apply existsb_exists in E. destruct E as (z & Hz & Hyz).
    apply String.eqb_eq in Hyz. subst z.
    split; [tauto|]. intros [[->|Hx] Hn]; tauto.
  - assert (~ In y seen) as Hy.
    { intros Hy. apply Bool.not_true_iff_false in E. apply E.
      apply existsb_exists. exists y. split; [assumption|apply String.eqb_refl]. }
    cbn [In]. rewrite IH. cbn [In].
    destruct (string_dec y x) as [->|Hne]; [tauto|]. tauto.
Qed.

Lemma Set_from_NoDup (seen xs : list string) : NoDup (Js.Set_from seen xs).
Proof.
  revert seen. induction xs as [|y xs IH]; intros seen; cbn; [constructor|].
  destruct (existsb (String.eqb y) seen); [apply IH|].
  constructor; [|apply IH]. rewrite Set_from_spec. cbn [In]. tauto.
Qed.

(** What [getTypesToMock] returns when it returns: the names, each once,
    that are a parameter type or a non-empty return type of a declaration
    with ONE bracket pair removed and that map to a type reference. *)
Lemma getTypesToMock_collects (module : ModuleDefinition) (names : list string) :
  getTypesToMock module = Js.Normal names ->
  exists tys,
    visitedTypes module = map Some tys
    /\ NoDup names
    /\ forall n, In n names <->
                 (exists raw, In raw (flat_map rawTypeNames tys)
                              /\ n = maybeUnwrapSwiftArray raw)
                 /\ kind (mapSwiftTypeToTsType (Some n)) = TypeReference.
Proof.
  rewrite getTypesToMock_eq.
  destruct (Js.foldM pushTypes (visitedTypes module) []) as [found|] eqn:E;
    cbn; [|discriminate].
  intros [= <-]. apply foldM_pushTypes_Normal in E.
  destruct E as (tys & Hv & ->). exists tys. split; [assumption|].
  split; [apply Set_from_NoDup|]. intros n. unfold Js.new_Set.
  rewrite Set_from_spec, filter_In. cbn [app In]. rewrite in_map_iff.
  assert (SyntaxKind_eqb (kind (mapSwiftTypeToTsType (Some n))) TypeReference = true
          <-> kind (mapSwiftTypeToTsType (Some n)) = TypeReference) as ->.
  { destruct (kind (mapSwiftTypeToTsType (Some n))); cbn;
      split; congruence. }
  split.
  - intros [[(raw & <- & Hraw) Hk] _]. split; [|assumption]. now exists raw.
  - intros [(raw & Hraw & ->) Hk]. split; [|tauto]. split; [|assumption].
    now exists raw.
Qed.

(** A module whose one function returns an array of arrays of [User], and
    one whose function returns an array of [User]. *)
Definition moduleReturning (returnType : string) : ModuleDefinition :=
  mkModuleDefinition
    (Some "Users")
    [mkDeclaration (Some "fetchUsers") (Some (mkTypes (Some []) (Some returnType)))]
    [] [] [] [] [] Null.

(** C6. A reference name nested two bracket pairs deep is not collected:
    [getTypesToMock] removes one bracket pair only, what is left maps to
    an array and is filtered out, and the module output uses [User]
    without declaring its alias.  One bracket pair deep, the name is
    collected. *)
Theorem nested_array_reference_is_not_collected :
  mapSwiftTypeToTsType (Some "[[User]]")
  = ArrayTypeNode (ArrayTypeNode (TypeReferenceNode "User" []))
  /\ getTypesToMock (moduleReturning "[[User]]") = Js.Normal []
  /\ getMockForModule (moduleReturning "[[User]]")
     = Js.Normal
         [FunctionDeclaration
            [ExportKeyword] (Some "fetchUsers") []
            (ArrayTypeNode (ArrayTypeNode (TypeReferenceNode "User" [])))
            (mkBlock [ReturnStatement (ArrayLiteralExpression [])] true)]
  /\ getTypesToMock (moduleReturning "[User]") = Js.Normal ["User"].
Proof. repeat split. Qed.

Lemma getMockedFunctions_stubs (functions : list Declaration) (async : bool)
      (stubs : list DeclarationStatement) :
  getMockedFunctions functions async = Js.Normal stubs ->
  Forall2 (fun fnStructure stub =>
             isFunctionDeclaration stub = true
             /\ stubName stub = decl_name fnStructure
             /\ isAsync stub = async)
          functions stubs.
Proof.
  unfold getMockedFunctions. intros H. apply mapM_Forall2 in H.
  induction H as [|fnStructure stub functions stubs Hstub _ IH];
    constructor; [|exact IH].
  apply mockedFunction_Normal in Hstub.
  destruct Hstub as (fnTypes & fnParameters & _ & _ & ->).
  destruct async; repeat split.
Qed.

Lemma filter_all {A} (f : A -> bool) (l : list A) :
  Forall (fun x => f x = true) l -> filter f l = l.
Proof.
  induction 1 as [|x l Hx _ IH]; cbn; [reflexivity|]. now rewrite Hx, IH.
Qed.

Lemma filter_none {A} (f : A -> bool) (l : list A) :
  Forall (fun x => f x = false) l -> filter f l = [].
Proof.
  induction 1 as [|x l Hx _ IH]; cbn; [reflexivity|]. now rewrite Hx, IH.
Qed.

Lemma Forall2_Forall_r {A B} (P : A -> B -> Prop) (Q : B -> Prop)
      (xs : list A) (ys : list B) :
  (forall x y, P x y -> Q y) -> Forall2 P xs ys -> Forall Q ys.
Proof. intros HPQ. induction 1; constructor; eauto. Qed.

(** C8. The output of [getMockForModule] is the placeholder type aliases
    (each name of [getTypesToMock] aliased to [any]), then one stub per
    entry of [functions], then one async stub per entry of
    [asyncFunctions], in that order; these are all the function
    declarations of the output, so properties, events, props and
    lifecycle hooks get no stub. *)
Theorem getMockForModule_layout (module : ModuleDefinition)
        (output : list DeclarationStatement) :
  getMockForModule module = Js.Normal output ->
  exists (typesToMock : list string)
         (mockedFunctions mockedAsyncFunctions : list DeclarationStatement),
    getTypesToMock module = Js.Normal typesToMock
    /\ getMockedFunctions (functions module) false = Js.Normal mockedFunctions
    /\ getMockedFunctions (asyncFunctions module) true
       = Js.Normal mockedAsyncFunctions
    /\ output
       = (map (fun type => TypeAliasDeclaration [ExportKeyword] type
                                                 (KeywordTypeNode AnyKeyword))
              typesToMock
          ++ mockedFunctions ++ mockedAsyncFunctions)%list
    /\ Forall2 (fun fnStructure stub =>
                  isFunctionDeclaration stub = true
                  /\ stubName stub = decl_name fnStructure
                  /\ isAsync stub = false)
               (functions module) mockedFunctions
    /\ Forall2 (fun fnStructure stub =>
                  isFunctionDeclaration stub = true
                  /\ stubName stub = decl_name fnStructure
                  /\ isAsync stub = true)
               (asyncFunctions module) mockedAsyncFunctions
    /\ filter isFunctionDeclaration output
       = (mockedFunctions ++ mockedAsyncFunctions)%list.
Proof.
  unfold getMockForModule.
  destruct (getTypesToMock module) as [typesToMock|] eqn:Ht;
    cbn [Js.bind]; [|discriminate].
  destruct (getMockedFunctions (functions module) false)
    as [mockedFunctions|] eqn:Hf; cbn [Js.bind]; [|discriminate].
  destruct (getMockedFunctions (asyncFunctions module) true)
    as [mockedAsyncFunctions|] eqn:Ha; cbn [Js.bind]; [|discriminate].
  intros [= <-]. exists typesToMock, mockedFunctions, mockedAsyncFunctions.
  pose proof (getMockedFunctions_stubs _ _ Hf) as Hfs.
  pose proof (getMockedFunctions_stubs _ _ Ha) as Has.
  repeat (split; [first [reflexivity | assumption]|]).
  rewrite !filter_app. unfold getMockedTypes.
  rewrite filter_none, !filter_all; [reflexivity| | |].
  - eapply Forall2_Forall_r; [|exact Has]. cbn. tauto.
  - eapply Forall2_Forall_r; [|exact Hfs]. cbn. tauto.
  - apply Forall_forall. intros d Hd. apply in_map_iff in Hd.
    destruct Hd as (n & <- & _). reflexivity.
Qed.

(** A module with a function, an async function, a property, a prop and a
    lifecycle hook. *)
Definition sampleModule : ModuleDefinition :=
  mkModuleDefinition
    (Some "Sample")
    [scenarioA]
    [mkDeclaration (Some "fetchName") (Some (mkTypes (Some []) (Some "String")))]
    []
    [mkDeclaration (Some "theme") (Some (mkTypes (Some []) (Some "Theme")))]
    [mkDeclaration (Some "color")
       (Some (mkTypes (Some [mkParameterInfo (Some "color") (Some "[UIColor]") None])
                      (Some "unknown")))]
    [mkDeclaration None (Some (mkTypes (Some []) (Some "unknown")))]
    Null.

Definition sampleOutput : list DeclarationStatement :=
  [ TypeAliasDeclaration [ExportKeyword] "Theme" (KeywordTypeNode AnyKeyword);
    TypeAliasDeclaration [ExportKeyword] "UIColor" (KeywordTypeNode AnyKeyword);
    scenarioA_stub;
    FunctionDeclaration
      [ExportKeyword; AsyncKeyword] (Some "fetchName") []
      (TypeReferenceNode "Promise" [KeywordTypeNode StringKeyword])
      (mkBlock [ReturnStatement (StringLiteral "")] true) ].

Lemma getMockForModule_layout_witness :
  getMockForModule sampleModule = Js.Normal sampleOutput
  /\ exists (typesToMock : list string)
            (mockedFunctions mockedAsyncFunctions : list DeclarationStatement),
      getTypesToMock sampleModule = Js.Normal typesToMock
      /\ getMockedFunctions (functions sampleModule) false
         = Js.Normal mockedFunctions
      /\ getMockedFunctions (asyncFunctions sampleModule) true
         = Js.Normal mockedAsyncFunctions
      /\ sampleOutput
         = (map (fun type => TypeAliasDeclaration [ExportKeyword] type
                                                   (KeywordTypeNode AnyKeyword))
                typesToMock
            ++ mockedFunctions ++ mockedAsyncFunctions)%list
      /\ Forall2 (fun fnStructure stub =>
                    isFunctionDeclaration stub = true
                    /\ stubName stub = decl_name fnStructure
                    /\ isAsync stub = false)
                 (functions sampleModule) mockedFunctions
      /\ Forall2 (fun fnStructure stub =>
                    isFunctionDeclaration stub = true
                    /\ stubName stub = decl_name fnStructure
                    /\ isAsync stub = true)
                 (asyncFunctions sampleModule) mockedAsyncFunctions
      /\ filter isFunctionDeclaration sampleOutput
         = (mockedFunctions ++ mockedAsyncFunctions)%list.
Proof.
  split; [reflexivity|].
  apply (@getMockForModule_layout sampleModule sampleOutput). reflexivity.
Defined.

End ModuleFacts.

(** ** The structure reader *)

Module ReaderFacts.
Import GetStructure.
Local Open Scope io_scope.

Lemma bind_result {A B} (m : IO.t A) (k : A -> IO.t B) (b : B) :
  IO.result (IO.bind m k) = Js.Normal b ->
  exists a, IO.result m = Js.Normal a /\ IO.result (k a) = Js.Normal b.
Proof.
  destruct m as [trace [a|e]]; cbn; [|discriminate].
  destruct (k a) as [trace' r] eqn:E. cbn. intros ->.
  exists a. now rewrite E.
Qed.

Lemma lift_result {A} (c : Js.Completion A) : IO.result (IO.lift c) = c.
Proof. reflexivity. Qed.

(** Dropping index 0 and every parameter named "view" is filtering the
    tail of the list. *)
Lemma filteri_from_S {A} (f : A -> bool) (n : nat) (xs : list A) :
  Js.filteri_from (S n) (fun x idx => negb (Nat.eqb idx 0) && f x) xs
  = filter f xs.
Proof.
  revert n. induction xs as [|x xs IH]; intros n; cbn; [reflexivity|].
  now rewrite IH.
Qed.

Lemma filteri_drops_first {A} (f : A -> bool) (xs : list A) :
  Js.filteri (fun x idx => negb (Nat.eqb idx 0) && f x) xs = filter f (tl xs).
Proof.
  unfold Js.filteri. destruct xs as [|x xs]; cbn; [reflexivity|].
  apply filteri_from_S.
Qed.

Definition notNamedView (p : ParameterInfo) : bool :=
  negb (Js.strict_eq (param_name p) "view").

(** How a prop relates to the definition [omitViewFromTypes] made it of. *)
Definition strippedFrom (definition prop : Declaration) : Prop :=
  decl_name prop = decl_name definition
  /\ exists definitionTypes,
      types definition = Some definitionTypes
      /\ types prop
         = Some (mkTypes (option_map (fun ps => filter notNamedView (tl ps))
                                     (parameters definitionTypes))
                         (returnType definitionTypes)).

Lemma omitViewFromTypes_Normal (definitions props : list Declaration) :
  omitViewFromTypes definitions = Js.Normal props ->
  Forall2 strippedFrom definitions props.
Proof.
  unfold omitViewFromTypes. intros H. apply StubFacts.mapM_Forall2 in H.
  induction H as [|d p ds ps Hd _ IH]; constructor; [|exact IH].
  destruct (types d) as [dTypes|] eqn:E; cbn in Hd; [|discriminate].
  injection Hd as <-. split; [reflexivity|]. exists dTypes. split; [assumption|].
  cbn [types]. do 2 f_equal.
  destruct (parameters dTypes) as [ps'|]; cbn [option_map]; [|reflexivity].
  f_equal. apply (filteri_drops_first notNamedView).
Qed.

Section View.

Variable cursorinfo : string -> nat -> Js.Completion Types.

Lemma findAndParseView_unfold (moduleDefinition : list Structure) (file : File) :
  findAndParseView cursorinfo moduleDefinition file =
  match find (fun md => Js.strict_eq (key_name md) "View") moduleDefinition with
  | None => IO.ret None
  | Some viewDefinition =>
      match substructure_ (at_ 0 (substructure_ (at_ 0
              (substructure_ (at_ 1 (key_substructure viewDefinition)))))) with
      | None =>
          IO.emit (IO.console_warn "Could not parse view definition") ;;
          IO.ret None
      | Some viewModuleDefinition =>
          parsed <- parseModuleDefinition cursorinfo viewModuleDefinition file ;;
          IO.ret (Some (withoutView parsed))
      end
  end.
Proof.
  funelim (findAndParseView cursorinfo moduleDefinition file);
    repeat match goal with
           | E : ?x = _ |- context [match ?x with _ => _ end] => rewrite E
           end;
    reflexivity.
Qed.

(** C5. A view definition that [findAndParseView] returns has no [view]
    key, and each of its props is a prop definition of the nested module
    definition with the first positional parameter and every parameter
    named "view" removed from its signature. *)
Theorem findAndParseView_flattens_and_strips
        (moduleDefinition : list Structure) (file : File)
        (definition : ModuleDefinition) :
  IO.result (findAndParseView cursorinfo moduleDefinition file)
  = Js.Normal (Some definition) ->
  view definition = Absent
  /\ (exists (viewDefinition : Structure)
             (viewModuleDefinition : list Structure)
             (propDefinitions : list Declaration),
         find (fun md => Js.strict_eq (key_name md) "View") moduleDefinition
         = Some viewDefinition
         /\ substructure_ (at_ 0 (substructure_ (at_ 0
               (substructure_ (at_ 1 (key_substructure viewDefinition))))))
            = Some viewModuleDefinition
         /\ IO.result (findNamedDefinitionsOfType cursorinfo "Prop"
                                                  viewModuleDefinition file)
            = Js.Normal propDefinitions
         /\ Forall2 strippedFrom propDefinitions (props definition))
  /\ Forall (fun prop =>
               forall propTypes ps,
                 types prop = Some propTypes ->
                 parameters propTypes = Some ps ->
                 Forall (fun p => param_name p <> Some "view") ps)
            (props definition).
Proof.
  rewrite findAndParseView_unfold.
  destruct (find _ moduleDefinition) as [viewDefinition|]; [|discriminate].
  destruct (substructure_ _) as [viewModuleDefinition|] eqn:Hpath;
    [|discriminate].
  intros H. apply bind_result in H. destruct H as (parsed & Hparsed & H).
  cbn in H. injection H as <-.
  split; [reflexivity|].
  unfold parseModuleDefinition, parseModuleDefinitionWith in Hparsed.
  repeat (apply bind_result in Hparsed;
          let x := fresh "x" in
          let Hx := fresh "Hx" in
          destruct Hparsed as (x & Hx & Hparsed)).
  cbn in Hparsed. injection Hparsed as <-. cbn [withoutView props].
  match goal with
  | Ho : IO.result (IO.lift (omitViewFromTypes ?defs)) = _,
    Hp : IO.result (findNamedDefinitionsOfType _ "Prop" _ _) = Js.Normal ?defs
    |- _ =>
      rewrite lift_result in Ho; apply omitViewFromTypes_Normal in Ho;
      rename Ho into Hstripped; rename Hp into Hprops
  end.
  split.
  - exists viewDefinition, viewModuleDefinition. eexists.
    split; [reflexivity|]. split; [exact Hpath|].
    split; [exact Hprops | exact Hstripped].
  - clear Hprops. induction Hstripped as [|d p ds ps Hd _ IH];
      constructor; [|exact IH].
    destruct Hd as (_ & dTypes & _ & Hp).
    intros propTypes params Ht Hps. rewrite Hp in Ht. injection Ht as <-.
    cbn [parameters] in Hps.
    destruct (parameters dTypes) as [rawParams|]; [|discriminate].
    cbn [option_map] in Hps. injection Hps as <-.
    apply Forall_forall. intros q Hq. apply filter_In in Hq.
    destruct Hq as [_ Hq]. unfold notNamedView in Hq.
    intros Hname. rewrite Hname in Hq. discriminate.
Qed.

End View.

(** Scenario C: a view whose closure declares the prop
    [onPress(view: ViewRef, handler: () -> Void)]. *)
Definition quote : string := String (ascii_of_nat 34) "".

Definition viewFile : File :=
  mkFile "ExpoButton.swift" ("Prop(" ++ quote ++ "onPress" ++ quote ++ ")").

Definition leaf (name kind typename : option string) (offset length : nat)
  : Structure :=
  mkStructure name kind typename offset length None.

Definition node (name kind typename : option string) (offset length : nat)
           (substructure : list Structure) : Structure :=
  mkStructure name kind typename offset length (Some substructure).

Definition onPressProp : Structure :=
  node (Some "Prop") (Some "source.lang.swift.expr.call") None 0 15
    [ leaf None (Some "source.lang.swift.expr.argument") None 5 9;
      node None (Some "source.lang.swift.expr.argument") None 16 40
        [ node None (Some "source.lang.swift.expr.closure") None 16 40
            [ leaf (Some "view") (Some "source.lang.swift.decl.var.parameter")
                   (Some "ViewRef") 18 4;
              leaf (Some "handler") (Some "source.lang.swift.decl.var.parameter")
                   (Some "() -> Void") 33 7 ] ] ].

Definition viewNode : Structure :=
  node (Some "View") (Some "source.lang.swift.expr.call") None 0 0
    [ leaf None (Some "source.lang.swift.expr.argument") None 0 0;
      node None (Some "source.lang.swift.expr.argument") None 0 0
        [ node None (Some "source.lang.swift.expr.closure") None 0 0
            [ node None (Some "source.lang.swift.stmt.brace") None 0 0
                [ onPressProp ] ] ] ].

Definition noCursorinfo : string -> nat -> Js.Completion Types :=
  fun _ _ => Js.Throw (Js.SystemError "sourcekitten: command not found").

Definition onPressStripped : ModuleDefinition :=
  mkModuleDefinition
    None [] [] [] []
    [mkDeclaration (Some "onPress")
       (Some (mkTypes (Some [mkParameterInfo (Some "handler") (Some "() -> Void") None])
                      (Some "unknown")))]
    [] Absent.

Lemma findAndParseView_flattens_and_strips_witness :
  IO.result (findAndParseView noCursorinfo [viewNode] viewFile)
  = Js.Normal (Some onPressStripped)
  /\ view onPressStripped = Absent
  /\ (exists (viewDefinition : Structure)
             (viewModuleDefinition : list Structure)
             (propDefinitions : list Declaration),
         find (fun md => Js.strict_eq (key_name md) "View") [viewNode]
         = Some viewDefinition
         /\ substructure_ (at_ 0 (substructure_ (at_ 0
               (substructure_ (at_ 1 (key_substructure viewDefinition))))))
            = Some viewModuleDefinition
         /\ IO.result (findNamedDefinitionsOfType noCursorinfo "Prop"
                                                  viewModuleDefinition viewFile)
            = Js.Normal propDefinitions
         /\ Forall2 strippedFrom propDefinitions (props onPressStripped))
  /\ Forall (fun prop =>
               forall propTypes ps,
                 types prop = Some propTypes ->
                 parameters propTypes = Some ps ->
                 Forall (fun p => param_name p <> Some "view") ps)
            (props onPressStripped).
Proof.
  split; [reflexivity|].
  apply (@findAndParseView_flattens_and_strips
           noCursorinfo [viewNode] viewFile onPressStripped).
  reflexivity.
Defined.

(** The module definitions a run printed, in order. *)
Definition printed (trace : list IO.Event) : list ModuleDefinition :=
  flat_map (fun e => match e with
                     | IO.console_log definition => [definition]
                     | _ => []
                     end) trace.

Lemma printed_app (t1 t2 : list IO.Event) :
  printed (t1 ++ t2) = (printed t1 ++ printed t2)%list.
Proof. apply flat_map_app. Qed.

Lemma for_of_app {A} (xs ys : list A) (f : A -> IO.t unit) :
  IO.for_of (xs ++ ys) f = (IO.for_of xs f ;; IO.for_of ys f).
Proof.
  induction xs as [|x xs IH]; cbn [app IO.for_of].
  - unfold IO.bind, IO.ret. now destruct (IO.for_of ys f).
  - rewrite IH. unfold IO.bind.
    destruct (f x) as [t1 [[]|e]]; [|reflexivity].
    destruct (IO.for_of xs f) as [t2 [[]|e]]; [|reflexivity].
    destruct (IO.for_of ys f) as [t3 r]. now rewrite app_assoc.
Qed.

Section Run.

Variable execSync : string -> Js.Completion string.
Variable JSON_parse : string -> Js.Completion (option Structure).
Variable readFileSync : string -> Js.Completion string.
Variable cursorinfo : string -> nat -> Js.Completion Types.

(** The structure command of a file exits with an error, or prints what
    [JSON.parse] rejects. *)
Definition structureCommandFails (path : string) (error : Js.Error) : Prop :=
  execSync ("sourcekitten structure --file " ++ path) = Js.Throw error
  \/ exists output,
      execSync ("sourcekitten structure --file " ++ path) = Js.Normal output
      /\ JSON_parse output = Js.Throw error.

Definition commandError (error : Js.Error) : IO.Event :=
  IO.console_error "An error occurred while executing the command:" error.

Local Abbreviation run :=
  (findModuleDefinitionsInFiles execSync JSON_parse readFileSync cursorinfo).

Lemma run_app (before after : list string) :
  run (before ++ after) = (run before ;; run after).
Proof. unfold findModuleDefinitionsInFiles. apply for_of_app. Qed.




End Run.

(** Scenario E: three files; SourceKitten fails on the second one. *)
Definition sampleExecSync (command : string) : Js.Completion string :=
  if String.eqb command "sourcekitten structure --file Broken.swift"
  then Js.Throw (Js.SystemError "Command failed")
  else Js.Normal "{}".

Definition sampleStructure : Structure :=
  node None (Some "source.lang.swift.decl.class") None 0 0
    [ node None (Some "source.lang.swift.decl.function.method.instance")
           (Some "ModuleDefinition") 0 0 [ onPressProp ] ].

Definition sampleJSON_parse (output : string)
  : Js.Completion (option Structure) :=
  Js.Normal (Some sampleStructure).

Definition sampleReadFileSync (path : string) : Js.Completion string :=
  Js.Normal (content viewFile).

Definition sampleRun (files : list string) : IO.t unit :=
  findModuleDefinitionsInFiles sampleExecSync sampleJSON_parse
                               sampleReadFileSync noCursorinfo files.



(** A run in which every file is processed to completion: it returns, and
    it has printed for each file, in order, what the run over that file
    alone prints. *)
Definition everyFileProcessed (run : list string -> IO.t unit)
           (files : list string) : Prop :=
  IO.result (run files) = Js.Normal tt
  /\ printed (IO.trace (run files))
     = flat_map (fun path => printed (IO.trace (run [path]))) files.

(** Scenario E is such a run: the file SourceKitten fails on prints
    nothing, alone as in the run. *)
Example scenarioE_processes_every_file :
  everyFileProcessed sampleRun ["A.swift"; "Broken.swift"; "B.swift"].
Proof. split; reflexivity. Qed.




End ReaderFacts.

(** ** From the structure reader to the stub generator *)

Module PipelineFacts.
Import GetStructure Mockgen ReaderFacts ModuleFacts.

(** [Name("Clipboard")], [Events("onChange")] and
    [Function("getString", impl)] as SourceKitten reports them. *)
Definition clipboardFile : File :=
  mkFile "ClipboardModule.swift"
         ("Name(" ++ quote ++ "Clipboard" ++ quote ++ ") Events("
          ++ quote ++ "onChange" ++ quote ++ ") Function("
          ++ quote ++ "getString" ++ quote ++ ", impl)").

Definition nameCall : Structure :=
  node (Some "Name") (Some "source.lang.swift.expr.call") None 0 17
    [ leaf None (Some "source.lang.swift.expr.argument") None 5 11 ].

Definition eventsCall : Structure :=
  node (Some "Events") (Some "source.lang.swift.expr.call") None 18 18
    [ leaf None (Some "source.lang.swift.expr.argument") None 25 10 ].

Definition functionCall : Structure :=
  node (Some "Function") (Some "source.lang.swift.expr.call") None 37 27
    [ leaf None (Some "source.lang.swift.expr.argument") None 46 11;
      leaf None (Some "source.lang.swift.expr.argument") None 59 4 ].

(** [Function("setUsers") { (users: [[User]]) in }]: the reader hands the
    nested array name to the generator as the type of a closure parameter,
    and the generated function then uses [User] without an alias. *)
Definition setUsersFile : File :=
  mkFile "UsersModule.swift" ("Function(" ++ quote ++ "setUsers" ++ quote ++ ")").

Definition setUsersCall : Structure :=
  node (Some "Function") (Some "source.lang.swift.expr.call") None 0 20
    [ leaf None (Some "source.lang.swift.expr.argument") None 9 10;
      node None (Some "source.lang.swift.expr.argument") None 21 30
        [ node None (Some "source.lang.swift.expr.closure") None 21 30
            [ leaf (Some "users") (Some "source.lang.swift.decl.var.parameter")
                   (Some "[[User]]") 23 5 ] ] ].

Definition setUsersModule : ModuleDefinition :=
  mkModuleDefinition
    None
    [mkDeclaration (Some "setUsers")
       (Some (mkTypes (Some [mkParameterInfo (Some "users") (Some "[[User]]") None])
                      (Some "unknown")))]
    [] [] [] [] [] Null.

Lemma nested_array_parameter_from_reader :
  parseModuleDefinition noCursorinfo [setUsersCall] setUsersFile
  = ([], Js.Normal setUsersModule)
  /\ getTypesToMock setUsersModule = Js.Normal []
  /\ getMockForModule setUsersModule
     = Js.Normal
         [ts.FunctionDeclaration
            [ts.ExportKeyword] (Some "setUsers")
            [ts.mkParameterDeclaration
               (Some "users")
               (ts.ArrayTypeNode (ts.ArrayTypeNode (ts.TypeReferenceNode "User" [])))]
            (ts.KeywordTypeNode ts.AnyKeyword)
            (ts.mkBlock [ts.ReturnStatement ts.NullLiteral] true)].
Proof. repeat split. Qed.

(** C10. [getTypesToMock] is not total on the module definitions the
    structure reader produces: for a module that declares an event, and for
    a module with a function whose type lookup failed (its [types] is not
    set), it throws a [TypeError] when it reads [types.parameters], and so
    does [getMockForModule]. *)
Theorem getTypesToMock_throws_on_event_or_null_types :
  IO.result (parseModuleDefinition noCursorinfo [nameCall; eventsCall]
                                   clipboardFile)
  = Js.Normal moduleWithEvent
  /\ getTypesToMock moduleWithEvent = Js.Throw Js.TypeError
  /\ getMockForModule moduleWithEvent = Js.Throw Js.TypeError
  /\ IO.result (parseModuleDefinition noCursorinfo [nameCall; functionCall]
                                      clipboardFile)
     = Js.Normal moduleWithUnresolvedFunction
  /\ getTypesToMock moduleWithUnresolvedFunction = Js.Throw Js.TypeError
  /\ getMockForModule moduleWithUnresolvedFunction = Js.Throw Js.TypeError.
Proof.
  split; [reflexivity|].
  split; [apply getTypesToMock_throws; left; discriminate|].
  split; [reflexivity|].
  split; [reflexivity|].
  split; [|reflexivity].
  apply getTypesToMock_throws. right.
  exists (mkDeclaration (Some "getString") None).
  split; [left; reflexivity | reflexivity].
Qed.

End PipelineFacts.

(** * Further properties of the stub generator *)

Module GeneratorFacts.
Import ts ts.factory Mockgen StubFacts TypeMapperFacts ModuleFacts.
Local Open Scope js_scope.

(** [maybeUnwrapSwiftArray] removes the first and the last character of a
    name that starts with a bracket and ends with one: putting the brackets
    back gives the name again and the result is two characters shorter.
    Any other name is returned as it is. *)
Theorem maybeUnwrapSwiftArray_inverts_brackets (type : string) :
  (isSwiftArray type = true ->
   "[" ++ maybeUnwrapSwiftArray type ++ "]" = type
   /\ String.length (maybeUnwrapSwiftArray type) + 2 = String.length type)
  /\ (isSwiftArray type = false -> maybeUnwrapSwiftArray type = type).
Proof.
  split.
  - intros H. destruct (isSwiftArray_inv _ H) as [t ->].
    rewrite maybeUnwrapSwiftArray_bracketed. split; [reflexivity|].
    cbn [append String.length]. rewrite StringFacts.length_app.
    cbn [String.length]. lia.
  - intros H. unfold maybeUnwrapSwiftArray.
    fold (isSwiftArray type). now rewrite H.
Qed.

Lemma maybeUnwrapSwiftArray_inverts_brackets_witness :
  ("[" ++ maybeUnwrapSwiftArray "[[Int]]" ++ "]" = "[[Int]]"
   /\ String.length (maybeUnwrapSwiftArray "[[Int]]") + 2
      = String.length "[[Int]]")
  /\ maybeUnwrapSwiftArray "Int]" = "Int]".
Proof.
  split.
  - apply (proj1 (maybeUnwrapSwiftArray_inverts_brackets "[[Int]]")).
    reflexivity.
  - apply (proj2 (maybeUnwrapSwiftArray_inverts_brackets "Int]")).
    reflexivity.
Defined.

(** A declaration the generator can make a stub of: it has a name (so
    that [createIdentifier] returns), it has [types], and they have
    [parameters]. *)
Definition hasSignature (fnStructure : Declaration) : bool :=
  match decl_name fnStructure, types fnStructure with
  | Some _, Some fnTypes =>
      match parameters fnTypes with
      | Some _ => true
      | None => false
      end
  | _, _ => false
  end.

Lemma mockedFunction_of_signature (async : bool) (fnStructure : Declaration) :
  hasSignature fnStructure = true ->
  exists stub, mockedFunction async fnStructure = Js.Normal stub
               /\ stubName stub = decl_name fnStructure.
Proof.
  unfold hasSignature, mockedFunction.
  destruct (decl_name fnStructure) as [name|]; [|discriminate].
  destruct (types fnStructure) as [t|]; [|discriminate].
  destruct (parameters t) as [ps|] eqn:Hps; [|discriminate].
  intros _. cbn [createIdentifier Js.member Js.bind].
  rewrite Hps. cbn [Js.member Js.bind].
  eexists. split; reflexivity.
Qed.

Lemma mockedFunction_without_signature (async : bool) (fnStructure : Declaration) :
  hasSignature fnStructure = false ->
  mockedFunction async fnStructure = Js.Throw Js.TypeError.
Proof.
  unfold hasSignature, mockedFunction.
  destruct (decl_name fnStructure) as [name|]; [|reflexivity].
  destruct (types fnStructure) as [t|]; [|reflexivity].
  destruct (parameters t) as [ps|] eqn:Hps; [discriminate|].
  intros _. cbn [createIdentifier Js.member Js.bind]. now rewrite Hps.
Qed.

(** [getMockedFunctions] returns one stub per declaration, in the order of
    the declarations and under their names, when every declaration has a
    name and types with a parameter list; it throws a [TypeError], and
    returns no stub at all, as soon as one declaration has no name, no
    types or no parameter list. *)
Theorem getMockedFunctions_needs_signatures
        (functions : list Declaration) (async : bool) :
  (forallb hasSignature functions = true ->
   exists stubs, getMockedFunctions functions async = Js.Normal stubs
                 /\ List.length stubs = List.length functions
                 /\ Forall2 (fun fnStructure stub =>
                               stubName stub = decl_name fnStructure)
                            functions stubs)
  /\ (forallb hasSignature functions = false ->
      getMockedFunctions functions async = Js.Throw Js.TypeError).
Proof.
  unfold getMockedFunctions.
  induction functions as [|f fs [IHok IHko]]; cbn [forallb Js.mapM].
  - split; [|discriminate]. intros _. exists []. repeat split. constructor.
  - destruct (hasSignature f) eqn:Hf; cbn [andb].
    + destruct (mockedFunction_of_signature async _ Hf) as (stub & -> & Hname).
      cbn [Js.bind]. split.
      * intros H. destruct (IHok H) as (stubs & -> & Hlen & Hnames).
        exists (stub :: stubs). cbn [Js.bind List.length]. rewrite Hlen.
        repeat split. now constructor.
      * intros H. now rewrite (IHko H).
    + rewrite (mockedFunction_without_signature async _ Hf).
      split; [discriminate | reflexivity].
Qed.

(** A declaration without name, as the reader gives lifecycle hooks. *)
Definition namelessDeclaration : Declaration :=
  mkDeclaration None (Some (mkTypes (Some []) (Some "String"))).

Lemma getMockedFunctions_needs_signatures_witness :
  (exists stubs,
      getMockedFunctions [scenarioA] true = Js.Normal stubs
      /\ List.length stubs = List.length [scenarioA]
      /\ Forall2 (fun fnStructure stub => stubName stub = decl_name fnStructure)
                 [scenarioA] stubs)
  /\ getMockedFunctions
       [scenarioA; mkDeclaration (Some "getString") (Some (mkTypes None None))]
       false
     = Js.Throw Js.TypeError
  /\ getMockedFunctions [scenarioA; namelessDeclaration] false
     = Js.Throw Js.TypeError.
Proof.
  split; [|split].
  - apply (proj1 (getMockedFunctions_needs_signatures [scenarioA] true)).
    reflexivity.
  - apply (proj2 (getMockedFunctions_needs_signatures
                    [scenarioA;
                     mkDeclaration (Some "getString") (Some (mkTypes None None))]
                    false)).
    reflexivity.
  - apply (proj2 (getMockedFunctions_needs_signatures
                    [scenarioA; namelessDeclaration] false)).
    reflexivity.
Defined.

Definition stubParameters (d : DeclarationStatement) : list ParameterDeclaration :=
  match d with
  | FunctionDeclaration _ _ parameters _ _ => parameters
  | TypeAliasDeclaration _ _ _ => []
  end.

(** A stub lists the parameters of its declaration one for one, in order and
    under the same names, each typed by the mapping of its [typename]; a
    parameter that has no [typename] is typed [void]. *)
Theorem stub_parameters_follow_declaration
        (functions : list Declaration) (async : bool)
        (stubs : list DeclarationStatement) :
  getMockedFunctions functions async = Js.Normal stubs ->
  Forall2
    (fun fnStructure stub =>
       exists fnTypes fnParameters,
         types fnStructure = Some fnTypes
         /\ parameters fnTypes = Some fnParameters
         /\ Forall2
              (fun p declared =>
                 parameterName declared = param_name p
                 /\ parameterType declared = mapSwiftTypeToTsType (typename p)
                 /\ (typename p = None ->
                     parameterType declared = KeywordTypeNode VoidKeyword))
              fnParameters (stubParameters stub))
    functions stubs.
Proof.
  unfold getMockedFunctions. intros H. apply mapM_Forall2 in H.
  induction H as [|fnStructure stub functions stubs Hstub _ IH];
    constructor; [|exact IH].
  apply mockedFunction_Normal in Hstub.
  destruct Hstub as (fnTypes & fnParameters & Ht & Hp & ->).
  exists fnTypes, fnParameters. split; [assumption|]. split; [assumption|].
  cbn [stubParameters]. clear Hp.
  induction fnParameters as [|p ps IHp]; cbn [map]; constructor; [|exact IHp].
  cbn [parameterName parameterType]. repeat split.
  intros ->. reflexivity.
Qed.

(** A declaration whose one parameter came without [typename]. *)
Definition untypedParameterDeclaration : Declaration :=
  mkDeclaration (Some "setName")
    (Some (mkTypes (Some [mkParameterInfo (Some "name") None (Some "String")])
                   None)).

Definition untypedParameterStub : DeclarationStatement :=
  FunctionDeclaration
    [ExportKeyword] (Some "setName")
    [mkParameterDeclaration (Some "name") (KeywordTypeNode VoidKeyword)]
    (KeywordTypeNode VoidKeyword) (mkBlock [] true).

Lemma stub_parameters_follow_declaration_witness :
  Forall2
    (fun fnStructure stub =>
       exists fnTypes fnParameters,
         types fnStructure = Some fnTypes
         /\ parameters fnTypes = Some fnParameters
         /\ Forall2
              (fun p declared =>
                 parameterName declared = param_name p
                 /\ parameterType declared = mapSwiftTypeToTsType (typename p)
                 /\ (typename p = None ->
                     parameterType declared = KeywordTypeNode VoidKeyword))
              fnParameters (stubParameters stub))
    [scenarioA; untypedParameterDeclaration]
    [scenarioA_stub; untypedParameterStub].
Proof.
  apply (@stub_parameters_follow_declaration
           [scenarioA; untypedParameterDeclaration] false
           [scenarioA_stub; untypedParameterStub]).
  reflexivity.
Defined.

(** The return statement of a stub for the return types that are not
    primitive: [return null] for the unknown marker, [return []] for every
    bracketed name whatever is between the brackets, and no statement at all
    for a name that maps to a type reference. *)
Theorem unknown_array_and_reference_return_statements
        (functions : list Declaration) (async : bool)
        (stubs : list DeclarationStatement) :
  getMockedFunctions functions async = Js.Normal stubs ->
  Forall2
    (fun fnStructure stub =>
       exists fnTypes,
         types fnStructure = Some fnTypes
         /\ (returnType fnTypes = Some "unknown" ->
             stubBody stub = [ReturnStatement NullLiteral])
         /\ (forall inner, returnType fnTypes = Some ("[" ++ inner ++ "]") ->
                           stubBody stub
                           = [ReturnStatement (ArrayLiteralExpression [])])
         /\ (kind (mapSwiftTypeToTsType (returnType fnTypes)) = TypeReference ->
             stubBody stub = []))
    functions stubs.
Proof.
  unfold getMockedFunctions. intros H. apply mapM_Forall2 in H.
  induction H as [|fnStructure stub functions stubs Hstub _ IH];
    constructor; [|exact IH].
  apply mockedFunction_Normal in Hstub.
  destruct Hstub as (fnTypes & fnParameters & Ht & _ & ->).
  exists fnTypes. split; [assumption|]. cbn [stubBody].
  split; [|split].
  - intros ->. reflexivity.
  - intros inner ->. now rewrite mapSwiftTypeToTsType_bracketed.
  - intros Hk.
    pose proof (getMockReturnStatements_table
                  (mapSwiftTypeToTsType (returnType fnTypes))) as Htable.
    rewrite Hk in Htable. now rewrite Htable.
Qed.

Definition returning (name returnType : string) : Declaration :=
  mkDeclaration (Some name) (Some (mkTypes (Some []) (Some returnType))).

Lemma unknown_array_and_reference_return_statements_witness :
  Forall2
    (fun fnStructure stub =>
       exists fnTypes,
         types fnStructure = Some fnTypes
         /\ (returnType fnTypes = Some "unknown" ->
             stubBody stub = [ReturnStatement NullLiteral])
         /\ (forall inner, returnType fnTypes = Some ("[" ++ inner ++ "]") ->
                           stubBody stub
                           = [ReturnStatement (ArrayLiteralExpression [])])
         /\ (kind (mapSwiftTypeToTsType (returnType fnTypes)) = TypeReference ->
             stubBody stub = []))
    [returning "getAny" "unknown"; returning "getUsers" "[User]";
     returning "getUser" "User"]
    [FunctionDeclaration [ExportKeyword] (Some "getAny") []
       (KeywordTypeNode AnyKeyword)
       (mkBlock [ReturnStatement NullLiteral] true);
     FunctionDeclaration [ExportKeyword] (Some "getUsers") []
       (ArrayTypeNode (TypeReferenceNode "User" []))
       (mkBlock [ReturnStatement (ArrayLiteralExpression [])] true);
     FunctionDeclaration [ExportKeyword] (Some "getUser") []
       (TypeReferenceNode "User" []) (mkBlock [] true)].
Proof.
  apply (@unknown_array_and_reference_return_statements
           [returning "getAny" "unknown"; returning "getUsers" "[User]";
            returning "getUser" "User"] false).
  reflexivity.
Defined.

(** The declarations whose types [getTypesToMock] reads, events aside. *)
Definition typedDeclarations (module : ModuleDefinition) : list Declaration :=
  (functions module ++ asyncFunctions module ++ properties module
   ++ props module ++ onCreate module)%list.

Definition hasTypename (p : ParameterInfo) : bool :=
  match typename p with
  | Some _ => true
  | None => false
  end.

(** Types that are set, with a parameter list in which every parameter has
    a [typename]. *)
Definition completeTypes (t : option Types) : bool :=
  match t with
  | Some t =>
      match parameters t with
      | Some ps => forallb hasTypename ps
      | None => false
      end
  | None => false
  end.

Lemma foldM_pushParameter_complete (ps : list ParameterInfo) (acc : list string) :
  forallb hasTypename ps = true ->
  exists r, Js.foldM pushParameter ps acc = Js.Normal r.
Proof.
  revert acc. induction ps as [|p ps IH]; intros acc; cbn [forallb Js.foldM].
  - intros _. now exists acc.
  - unfold hasTypename at 1, pushParameter at 1.
    destruct (typename p) as [s|]; cbn [andb Js.member Js.bind]; [|discriminate].
    apply IH.
Qed.

Lemma foldM_pushParameter_incomplete (ps : list ParameterInfo) (acc : list string) :
  forallb hasTypename ps = false ->
  Js.foldM pushParameter ps acc = Js.Throw Js.TypeError.
Proof.
  revert acc. induction ps as [|p ps IH]; intros acc; cbn [forallb Js.foldM].
  - discriminate.
  - unfold hasTypename at 1, pushParameter at 1.
    destruct (typename p) as [s|]; cbn [andb Js.member Js.bind]; [|reflexivity].
    apply IH.
Qed.

Lemma pushTypes_complete (acc : list string) (t : option Types) :
  completeTypes t = true -> exists r, pushTypes acc t = Js.Normal r.
Proof.
  unfold completeTypes, pushTypes. destruct t as [t|]; [|discriminate].
  destruct (parameters t) as [ps|] eqn:Hps; [|discriminate].
  intros H. cbn [Js.member Js.bind]. rewrite Hps. cbn [Js.member Js.bind].
  destruct (foldM_pushParameter_complete ps acc H) as [r ->].
  cbn [Js.bind]. eexists. reflexivity.
Qed.

Lemma pushTypes_incomplete (acc : list string) (t : option Types) :
  completeTypes t = false -> pushTypes acc t = Js.Throw Js.TypeError.
Proof.
  unfold completeTypes, pushTypes. destruct t as [t|]; [|reflexivity].
  destruct (parameters t) as [ps|] eqn:Hps.
  - intros H. cbn [Js.member Js.bind]. rewrite Hps. cbn [Js.member Js.bind].
    now rewrite (foldM_pushParameter_incomplete ps acc H).
  - intros _. cbn [Js.member Js.bind]. now rewrite Hps.
Qed.

Lemma foldM_pushTypes_complete (l : list (option Types)) (acc : list string) :
  forallb completeTypes l = true ->
  exists r, Js.foldM pushTypes l acc = Js.Normal r.
Proof.
  revert acc. induction l as [|t l IH]; intros acc; cbn [forallb Js.foldM].
  - intros _. now exists acc.
  - intros H. apply andb_true_iff in H. destruct H as [Ht Hl].
    destruct (pushTypes_complete acc t Ht) as [r ->]. cbn [Js.bind].
    now apply IH.
Qed.

Lemma foldM_pushTypes_incomplete (l : list (option Types)) (acc : list string) :
  forallb completeTypes l = false ->
  Js.foldM pushTypes l acc = Js.Throw Js.TypeError.
Proof.
  revert acc. induction l as [|t l IH]; intros acc; cbn [forallb Js.foldM].
  - discriminate.
  - destruct (completeTypes t) eqn:Ht; cbn [andb].
    + destruct (pushTypes_complete acc t Ht) as [r ->]. cbn [Js.bind].
      apply IH.
    + intros _. now rewrite (pushTypes_incomplete acc t Ht).
Qed.

Lemma forallb_map_compose {A B} (f : B -> bool) (g : A -> B) (l : list A) :
  forallb f (map g l) = forallb (fun x => f (g x)) l.
Proof. induction l as [|x l IH]; cbn; [reflexivity | now rewrite IH]. Qed.

Lemma visitedTypes_complete (module : ModuleDefinition) :
  forallb completeTypes (visitedTypes module)
  = match events module with
    | [] => forallb (fun d => completeTypes (types d)) (typedDeclarations module)
    | _ :: _ => false
    end.
Proof.
  unfold visitedTypes, typedDeclarations.
  rewrite !forallb_app, !forallb_map_compose.
  destruct (events module) as [|e es]; cbn [map forallb completeTypes andb].
  - reflexivity.
  - now rewrite !andb_false_r.
Qed.

(** [getTypesToMock] returns exactly for the modules that have no event and
    in which every function, async function, property, prop and lifecycle
    hook has types with a parameter list whose parameters all have a
    [typename]; for every other module it throws a [TypeError]. *)
Theorem getTypesToMock_returns_iff_complete (module : ModuleDefinition) :
  (events module = [] ->
   forallb (fun d => completeTypes (types d)) (typedDeclarations module) = true ->
   exists names, getTypesToMock module = Js.Normal names)
  /\ (events module <> []
      \/ forallb (fun d => completeTypes (types d)) (typedDeclarations module)
         = false ->
      getTypesToMock module = Js.Throw Js.TypeError).
Proof.
  rewrite getTypesToMock_eq. pose proof (visitedTypes_complete module) as Hv.
  split.
  - intros Hev Hall. rewrite Hev, Hall in Hv.
    destruct (foldM_pushTypes_complete _ [] Hv) as [r ->].
    cbn [Js.bind]. eexists. reflexivity.
  - intros H.
    assert (forallb completeTypes (visitedTypes module) = false) as Hbad.
    { rewrite Hv. destruct (events module); [|reflexivity].
      destruct H as [H|H]; [now elim H | exact H]. }
    now rewrite (foldM_pushTypes_incomplete _ [] Hbad).
Qed.

(** A module with a function whose parameter was read from cursor info, so
    that its type is under [nametype]. *)
Definition moduleWithUntypedParameter : ModuleDefinition :=
  mkModuleDefinition (Some "Profile") [untypedParameterDeclaration]
                     [] [] [] [] [] Null.

Lemma getTypesToMock_returns_iff_complete_witness :
  (exists names, getTypesToMock sampleModule = Js.Normal names)
  /\ getTypesToMock moduleWithUntypedParameter = Js.Throw Js.TypeError.
Proof.
  split.
  - apply (proj1 (getTypesToMock_returns_iff_complete sampleModule));
      reflexivity.
  - apply (proj2 (getTypesToMock_returns_iff_complete moduleWithUntypedParameter)).
    right. reflexivity.
Defined.

Lemma rawTypeNames_spec (t : Types) (raw : string) :
  In raw (rawTypeNames t) <->
  (exists ps p, parameters t = Some ps /\ In p ps /\ typename p = Some raw)
  \/ (returnType t = Some raw /\ raw <> "").
Proof.
  unfold rawTypeNames. rewrite in_app_iff.
  match goal with
  | |- ?a \/ ?b <-> ?c \/ ?d =>
      enough ((a <-> c) /\ (b <-> d)) as [Hl Hr] by tauto
  end.
  split.
  - destruct (parameters t) as [ps|].
    + rewrite in_flat_map. split.
      * intros (p & Hp & Hraw). exists ps, p. split; [reflexivity|].
        split; [assumption|].
        destruct (typename p) as [s|]; [|now destruct Hraw].
        destruct Hraw as [->|[]]. reflexivity.
      * intros (ps' & p & [= <-] & Hp & Ht). exists p. split; [assumption|].
        rewrite Ht. now left.
    + split; [intros [] | intros (ps & p & H & _); discriminate].
  - destruct (returnType t) as [r|].
    + cbn [Js.truthy]. destruct (String.eqb_spec r "") as [->|Hne]; cbn [negb].
      * split; [intros [] | intros [[= <-] H]; now elim H].
      * split.
        -- intros [->|[]]. split; [reflexivity|assumption].
        -- intros [[= ->] _]. now left.
    + split; [intros [] | intros [H _]; discriminate].
Qed.

Lemma visitedTypes_Some (module : ModuleDefinition) (tys : list Types) (t : Types) :
  visitedTypes module = map Some tys ->
  (In t tys <-> exists d, In d (typedDeclarations module) /\ types d = Some t).
Proof.
  intros Hv.
  assert (In t tys <-> In (Some t) (visitedTypes module)) as ->.
  { rewrite Hv, in_map_iff. split.
    - intros H. now exists t.
    - intros (t' & [= ->] & H). exact H. }
  unfold visitedTypes, typedDeclarations. rewrite !in_app_iff, !in_map_iff.
  split.
  - intros [H|[H|[H|[H|[H|H]]]]]; destruct H as (d & Hd & Hin);
      try discriminate; exists d; rewrite !in_app_iff; tauto.
  - intros (d & Hin & Hd). rewrite !in_app_iff in Hin.
    destruct Hin as [H|[H|[H|[H|H]]]];
      [left | right; left | do 3 right; left | do 4 right; left | do 5 right];
      exists d; tauto.
Qed.

(** When [getTypesToMock] returns, a name is in its result exactly when it
    maps to a type reference and is what [maybeUnwrapSwiftArray] makes of
    the [typename] of a parameter, or of the non-empty return type, of a
    function, async function, property, prop or lifecycle hook of the
    module; no name is there twice. *)
Theorem getTypesToMock_result (module : ModuleDefinition) (names : list string) :
  getTypesToMock module = Js.Normal names ->
  NoDup names
  /\ forall n : string,
      In n names <->
      kind (mapSwiftTypeToTsType (Some n)) = TypeReference
      /\ exists d t raw,
          In d (typedDeclarations module)
          /\ types d = Some t
          /\ ((exists ps p, parameters t = Some ps /\ In p ps
                            /\ typename p = Some raw)
              \/ (returnType t = Some raw /\ raw <> ""))
          /\ n = maybeUnwrapSwiftArray raw.
Proof.
  intros H. apply getTypesToMock_collects in H.
  destruct H as (tys & Hv & Hnodup & Hin). split; [assumption|].
  intros n. rewrite Hin. split.
  - intros [(raw & Hraw & ->) Hk]. split; [assumption|].
    apply in_flat_map in Hraw. destruct Hraw as (t & Ht & Hraw).
    apply (visitedTypes_Some module tys t Hv) in Ht. destruct Ht as (d & Hd & Htd).
    exists d, t, raw. rewrite <- rawTypeNames_spec. tauto.
  - intros [Hk (d & t & raw & Hd & Htd & Hraw & ->)]. split; [|assumption].
    exists raw. split; [|reflexivity]. apply in_flat_map. exists t.
    split; [|now apply rawTypeNames_spec].
    apply (visitedTypes_Some module tys t Hv). now exists d.
Qed.

Lemma getTypesToMock_result_witness :
  NoDup ["Theme"; "UIColor"]
  /\ forall n : string,
      In n ["Theme"; "UIColor"] <->
      kind (mapSwiftTypeToTsType (Some n)) = TypeReference
      /\ exists d t raw,
          In d (typedDeclarations sampleModule)
          /\ types d = Some t
          /\ ((exists ps p, parameters t = Some ps /\ In p ps
                            /\ typename p = Some raw)
              \/ (returnType t = Some raw /\ raw <> ""))
          /\ n = maybeUnwrapSwiftArray raw.
Proof.
  apply (@getTypesToMock_result sampleModule ["Theme"; "UIColor"]).
  reflexivity.
Defined.

Lemma kind_TypeReference_inv (n : string) :
  kind (mapSwiftTypeToTsType (Some n)) = TypeReference ->
  n <> "" /\ isSwiftArray n = false
  /\ ~ In n ["String"; "Bool"; "Int"; "Float"; "Double"; "unknown"].
Proof.
  rewrite mapSwiftTypeToTsType_unfold. cbn [Js.truthy].
  destruct (String.eqb_spec n "") as [->|Hne]; cbn [negb kind]; [discriminate|].
  destruct (isSwiftArray n); cbn [kind]; [discriminate|].
  intros Hk. split; [assumption|]. split; [reflexivity|].
  intros Hin. cbn [In] in Hin.
  destruct Hin as [<-|[<-|[<-|[<-|[<-|[<-|[]]]]]]]; discriminate.
Qed.

(** [getTypesToMock] never returns the empty name, a bracketed name, a
    primitive name or the unknown marker, so none of them gets a placeholder
    alias. *)
Theorem getTypesToMock_never_aliases_builtin
        (module : ModuleDefinition) (names : list string) :
  getTypesToMock module = Js.Normal names ->
  Forall (fun n => n <> "" /\ isSwiftArray n = false
                   /\ ~ In n ["String"; "Bool"; "Int"; "Float"; "Double";
                               "unknown"])
         names.
Proof.
  intros H. apply getTypesToMock_collects in H.
  destruct H as (tys & _ & _ & Hin).
  apply Forall_forall. intros n Hn. apply Hin in Hn.
  apply kind_TypeReference_inv. tauto.
Qed.

Lemma getTypesToMock_never_aliases_builtin_witness :
  Forall (fun n => n <> "" /\ isSwiftArray n = false
                   /\ ~ In n ["String"; "Bool"; "Int"; "Float"; "Double";
                               "unknown"])
         ["Theme"; "UIColor"].
Proof.
  apply (@getTypesToMock_never_aliases_builtin sampleModule ["Theme"; "UIColor"]).
  reflexivity.
Defined.






End GeneratorFacts.

(** * Further properties of the structure reader *)

Module StructureReaderFacts.
Import GetStructure ReaderFacts.
Local Open Scope io_scope.

Definition isClosure (s : Structure) : bool :=
  Js.strict_eq (key_kind s) "source.lang.swift.expr.closure".

Definition isParameter (s : Structure) : bool :=
  Js.strict_eq (key_kind s) "source.lang.swift.decl.var.parameter".

(** The nodes of a tree in document order: a node, then its children's
    subtrees from left to right. *)
Fixpoint preorder (structure : Structure) : list Structure :=
  structure
  :: match key_substructure structure with
     | Some children => flat_map preorder children
     | None => []
     end.

(** A node typed as the module definition that has a child sequence. *)
Definition isModuleDefinition (structure : Structure) : bool :=
  Js.strict_eq (key_typename structure) "ModuleDefinition"
  && match key_substructure structure with
     | Some _ => true
     | None => false
     end.

Definition firstModuleDefinition (structure : Structure)
  : option (list Structure) :=
  match find isModuleDefinition (preorder structure) with
  | Some found => key_substructure found
  | None => None
  end.

Lemma find_app {A} (f : A -> bool) (l1 l2 : list A) :
  find f (l1 ++ l2)
  = match find f l1 with
    | Some x => Some x
    | None => find f l2
    end.
Proof.
  induction l1 as [|x l1 IH]; cbn; [reflexivity|].
  destruct (f x); [reflexivity | exact IH].
Qed.

Lemma depth_child (structure child : Structure) (children : list Structure) :
  key_substructure structure = Some children ->
  In child children -> depth child < depth structure.
Proof.
  destruct structure as [n k t o len sub]. cbn [key_substructure].
  intros -> Hin. cbn [depth key_substructure].
  enough (depth child <= list_max (map depth children)) by lia.
  induction children as [|y l IH]; [destruct Hin|].
  change (list_max (map depth (y :: l)))
    with (Nat.max (depth y) (list_max (map depth l))).
  destruct Hin as [->|Hin]; [lia|]. specialize (IH Hin). lia.
Qed.

Lemma findModuleDefinitionInNode_first (structure : Structure) :
  IO.result (findModuleDefinitionInNode structure)
  = Js.Normal (firstModuleDefinition structure).
Proof.
  assert (forall l : list Structure,
             (forall c, In c l ->
                        IO.result (findModuleDefinitionInNode c)
                        = Js.Normal (firstModuleDefinition c)) ->
             IO.result
               ((fix loop (children : list Structure)
                   : IO.t (option (list Structure)) :=
                   match children with
                   | [] => IO.ret None
                   | child :: children' =>
                       result <- findModuleDefinitionInNode child ;;
                       match result with
                       | Some result => IO.ret (Some result)
                       | None => loop children'
                       end
                   end) l)
             = Js.Normal
                 (match find isModuleDefinition (flat_map preorder l) with
                  | Some found => key_substructure found
                  | None => None
                  end)) as Hloop.
  { intros l Hl. induction l as [|c l IH]; [reflexivity|].
    cbn [flat_map]. rewrite find_app.
    pose proof (Hl c (or_introl eq_refl)) as Hc.
    unfold firstModuleDefinition in Hc.
    destruct (findModuleDefinitionInNode c) as [trace [r|e]] eqn:Ec;
      cbn [IO.result snd] in Hc; [|discriminate].
    injection Hc as ->. unfold IO.bind at 1.
    destruct (find isModuleDefinition (preorder c)) as [found|] eqn:Efound.
    - apply find_some in Efound. destruct Efound as [_ Hfound].
      unfold isModuleDefinition in Hfound.
      apply andb_true_iff in Hfound. destruct Hfound as [_ Hfound].
      destruct (key_substructure found) as [root|]; [|discriminate].
      reflexivity.
    - specialize (IH (fun c' Hc' => Hl c' (or_intror Hc'))).
      match goal with
      | |- IO.result (let (_, _) := ?m in _) = _ =>
          destruct m as [trace' r'] eqn:Em
      end.
      cbn [IO.result snd] in *. exact IH. }
  remember (depth structure) as n eqn:Hn.
  revert structure Hn. induction n as [n IHn] using lt_wf_ind.
  intros structure Hn. subst n.
  destruct structure as [name kind typename offset length sub].
  unfold firstModuleDefinition.
  cbn [findModuleDefinitionInNode preorder key_typename key_substructure find].
  unfold isModuleDefinition at 1. cbn [key_typename key_substructure].
  destruct (Js.strict_eq typename "ModuleDefinition") eqn:Htyped; cbn [andb].
  - destruct sub as [children|]; reflexivity.
  - destruct sub as [[|child children]|]; [reflexivity| |reflexivity].
    apply (Hloop (child :: children)).
    intros c Hc. apply (IHn (depth c)); [|reflexivity].
    apply (@depth_child
             (mkStructure name kind typename offset length
                          (Some (child :: children)))
             c (child :: children)); [reflexivity|exact Hc].
Qed.

(** [findModuleDefinitionInStructure] never throws.  It returns the child
    sequence of the first node, in document order, that is typed
    [ModuleDefinition] and has a child sequence; a node typed
    [ModuleDefinition] without one does not end the search.  Without such a
    node, and for a missing structure, there is no result. *)
Theorem findModuleDefinitionInStructure_finds_first
        (structure : option Structure) :
  IO.result (findModuleDefinitionInStructure structure)
  = Js.Normal match structure with
              | Some structure => firstModuleDefinition structure
              | None => None
              end.
Proof.
  destruct structure as [structure|]; [|reflexivity].
  apply findModuleDefinitionInNode_first.
Qed.

Lemma substring_length_le (n m : nat) (s : string) :
  String.length (String.substring n m s) <= m.
Proof.
  revert n m. induction s as [|c s IH]; intros [|n] [|m]; cbn; try lia.
  - specialize (IH 0 m). lia.
  - apply IH.
  - apply IH.
Qed.

Lemma removeAll_length_le (s : string) (c : ascii) :
  String.length (Js.removeAll s c) <= String.length s.
Proof.
  induction s as [|a s IH]; cbn; [lia|].
  destruct (Ascii.eqb a c); cbn; lia.
Qed.

Lemma removeAll_removes (s : string) (c : ascii) :
  ~ In c (list_ascii_of_string (Js.removeAll s c)).
Proof.
  induction s as [|a s IH]; cbn; [tauto|].
  destruct (Ascii.eqb_spec a c) as [->|Hne]; [exact IH|].
  cbn. intros [H|H]; [now elim Hne | now elim IH].
Qed.

(** The identifier [getIdentifierFromOffsetObject] reads holds no double
    quote and is no longer than the [key.length] of the offset object;
    without an offset object the function throws a [TypeError]. *)
Theorem getIdentifierFromOffsetObject_bounds (file : File) :
  getIdentifierFromOffsetObject None file = Js.Throw Js.TypeError
  /\ forall offsetObject : Structure,
      exists identifier,
        getIdentifierFromOffsetObject (Some offsetObject) file
        = Js.Normal identifier
        /\ ~ In (ascii_of_nat 34) (list_ascii_of_string identifier)
        /\ String.length identifier <= key_length offsetObject.
Proof.
  split; [reflexivity|]. intros offsetObject.
  unfold getIdentifierFromOffsetObject. cbn [Js.member Js.bind].
  eexists. split; [reflexivity|]. split; [apply removeAll_removes|].
  eapply Nat.le_trans; [apply removeAll_length_le|].
  unfold Js.substring.
  eapply Nat.le_trans; [apply substring_length_le|]. lia.
Qed.

Section Lookups.

Variable execSync : string -> Js.Completion string.
Variable JSON_parse : string -> Js.Completion (option Structure).
Variable cursorinfo : string -> nat -> Js.Completion Types.

(** [getStructureFromFile] never throws: it returns what the output of the
    command parses to and logs nothing, or it logs one error line and
    returns nothing. *)
Theorem getStructureFromFile_never_throws (file : File) :
  (exists output structure,
      execSync ("sourcekitten structure --file " ++ path file)
      = Js.Normal output
      /\ JSON_parse output = Js.Normal structure
      /\ getStructureFromFile execSync JSON_parse file
         = ([], Js.Normal structure))
  \/ (exists error,
         structureCommandFails execSync JSON_parse (path file) error
         /\ getStructureFromFile execSync JSON_parse file
            = ([commandError error], Js.Normal None)).
Proof.
  unfold getStructureFromFile, structureCommandFails.
  destruct (execSync ("sourcekitten structure --file " ++ path file))
    as [output|error] eqn:Hexec.
  - destruct (JSON_parse output) as [structure|error] eqn:Hparse.
    + left. exists output, structure. cbn. rewrite Hparse. auto.
    + right. exists error. split.
      * right. exists output. auto.
      * cbn. rewrite Hparse. reflexivity.
  - right. exists error. split; [now left | reflexivity].
Qed.

(** [getTypeFromOffsetObject] never throws: without an offset object it
    returns null and sends no request; otherwise it returns the types the
    request gives, or logs one error line and returns nothing when the
    request fails. *)
Theorem getTypeFromOffsetObject_never_throws (file : File) :
  getTypeFromOffsetObject cursorinfo None file = ([], Js.Normal None)
  /\ forall offsetObject : Structure,
      (exists found,
          cursorinfo (path file) (key_offset offsetObject) = Js.Normal found
          /\ getTypeFromOffsetObject cursorinfo (Some offsetObject) file
             = ([], Js.Normal (Some found)))
      \/ (exists error,
             cursorinfo (path file) (key_offset offsetObject) = Js.Throw error
             /\ getTypeFromOffsetObject cursorinfo (Some offsetObject) file
                = ([commandError error], Js.Normal None)).
Proof.
  split; [reflexivity|]. intros offsetObject.
  unfold getTypeFromOffsetObject.
  destruct (cursorinfo (path file) (key_offset offsetObject)) as [found|error].
  - left. exists found. split; reflexivity.
  - right. exists error. split; reflexivity.
Qed.

End Lookups.

(** Types read from a closure always have the unknown marker as return
    type, so the stub of a declaration written with a closure is typed
    [any] ([Promise<any>] when async) and returns [null]; its parameters
    are the children of the closure that are parameter declarations, in
    their order, under their names and with their types mapped.  A
    closure without child sequence gives types without parameter list, for
    which no stub can be made.  The declaration is a named one, as the
    reader makes them for functions and async functions. *)
Theorem closure_declaration_stub
        (structureObject : option Structure) (closureTypes : Types) :
  parseClosureTypes structureObject = Js.Normal (Some closureTypes) ->
  returnType closureTypes = Some "unknown"
  /\ exists object siblings closure,
      structureObject = Some object
      /\ key_substructure object = Some siblings
      /\ find isClosure siblings = Some closure
      /\ forall (async : bool) (name : string),
          match key_substructure closure with
          | Some children =>
              exists stub,
                Mockgen.mockedFunction
                  async (mkDeclaration (Some name) (Some closureTypes))
                = Js.Normal stub
                /\ StubFacts.stubName stub = Some name
                /\ StubFacts.stubBody stub = [ts.ReturnStatement ts.NullLiteral]
                /\ StubFacts.stubType stub
                   = (if async
                      then ts.TypeReferenceNode
                             "Promise" [ts.KeywordTypeNode ts.AnyKeyword]
                      else ts.KeywordTypeNode ts.AnyKeyword)
                /\ GeneratorFacts.stubParameters stub
                   = map (fun p =>
                            ts.mkParameterDeclaration
                              (key_name p)
                              (Mockgen.mapSwiftTypeToTsType (key_typename p)))
                         (filter isParameter children)
          | None =>
              Mockgen.mockedFunction
                async (mkDeclaration (Some name) (Some closureTypes))
              = Js.Throw Js.TypeError
          end.
Proof.
  unfold parseClosureTypes.
  destruct structureObject as [structureObject|]; cbn [Js.member Js.bind];
    [|discriminate].
  destruct (match key_substructure structureObject with
            | Some substructure => find _ substructure
            | None => None
            end) as [closure|] eqn:Hclosure; [|discriminate].
  intros [= <-]. split; [reflexivity|].
  destruct (key_substructure structureObject) as [substructure|] eqn:Hsub;
    [|discriminate].
  exists structureObject, substructure, closure.
  split; [reflexivity|]. split; [exact Hsub|]. split; [exact Hclosure|].
  clear Hclosure.
  - intros async name. unfold Mockgen.mockedFunction.
    cbn [types parameters returnType decl_name ts.factory.createIdentifier
         Js.member Js.bind].
    destruct (key_substructure closure) as [children|];
      cbn [option_map Js.member Js.bind]; [|reflexivity].
    eexists. split; [reflexivity|].
    cbn [StubFacts.stubName StubFacts.stubBody StubFacts.stubType
         GeneratorFacts.stubParameters].
    split; [reflexivity|]. split; [reflexivity|]. split; [now destruct async|].
    now rewrite map_map.
Qed.

(** The closure argument of a declaration: a handler, a statement and the
    view, in this order. *)
Definition closureArgument : Structure :=
  node None (Some "source.lang.swift.expr.argument") None 16 40
    [ leaf None (Some "source.lang.swift.expr.argument") None 0 0;
      node None (Some "source.lang.swift.expr.closure") None 16 40
        [ leaf (Some "handler") (Some "source.lang.swift.decl.var.parameter")
               (Some "() -> Void") 33 7;
          leaf None (Some "source.lang.swift.expr.call") None 50 4;
          leaf (Some "view") (Some "source.lang.swift.decl.var.parameter")
               (Some "ViewRef") 18 4 ] ].

Lemma closure_declaration_stub_witness :
  returnType (mkTypes (Some [mkParameterInfo (Some "handler") (Some "() -> Void") None;
                             mkParameterInfo (Some "view") (Some "ViewRef") None])
                      (Some "unknown"))
  = Some "unknown"
  /\ exists object siblings closure,
      Some closureArgument = Some object
      /\ key_substructure object = Some siblings
      /\ find isClosure siblings = Some closure
      /\ forall (async : bool) (name : string),
          match key_substructure closure with
          | Some children =>
              exists stub,
                Mockgen.mockedFunction
                  async
                  (mkDeclaration
                     (Some name)
                     (Some (mkTypes
                              (Some [mkParameterInfo (Some "handler")
                                                     (Some "() -> Void") None;
                                     mkParameterInfo (Some "view")
                                                     (Some "ViewRef") None])
                              (Some "unknown"))))
                = Js.Normal stub
                /\ StubFacts.stubName stub = Some name
                /\ StubFacts.stubBody stub = [ts.ReturnStatement ts.NullLiteral]
                /\ StubFacts.stubType stub
                   = (if async
                      then ts.TypeReferenceNode
                             "Promise" [ts.KeywordTypeNode ts.AnyKeyword]
                      else ts.KeywordTypeNode ts.AnyKeyword)
                /\ GeneratorFacts.stubParameters stub
                   = map (fun p =>
                            ts.mkParameterDeclaration
                              (key_name p)
                              (Mockgen.mapSwiftTypeToTsType (key_typename p)))
                         (filter isParameter children)
          | None =>
              Mockgen.mockedFunction
                async
                (mkDeclaration
                   (Some name)
                   (Some (mkTypes
                            (Some [mkParameterInfo (Some "handler")
                                                   (Some "() -> Void") None;
                                   mkParameterInfo (Some "view")
                                                   (Some "ViewRef") None])
                            (Some "unknown"))))
              = Js.Throw Js.TypeError
          end.
Proof.
  apply (@closure_declaration_stub (Some closureArgument)).
  reflexivity.
Defined.

Definition hasTypes (d : Declaration) : bool :=
  match types d with
  | Some _ => true
  | None => false
  end.

Lemma omitViewFromTypes_without_types (definitions : list Declaration) :
  forallb hasTypes definitions = false ->
  omitViewFromTypes definitions = Js.Throw Js.TypeError.
Proof.
  unfold omitViewFromTypes.
  induction definitions as [|d ds IH]; cbn [forallb Js.mapM]; [discriminate|].
  unfold hasTypes at 1. destruct (types d) as [t|]; cbn [andb Js.member Js.bind];
    [|reflexivity].
  intros H. now rewrite (IH H).
Qed.

(** [omitViewFromTypes] returns when every definition has types, and then
    keeps the name and the return type of each and filters its parameters;
    it throws a [TypeError] as soon as one definition has none. *)
Theorem omitViewFromTypes_needs_types (definitions : list Declaration) :
  (forallb hasTypes definitions = true ->
   exists stripped,
     omitViewFromTypes definitions = Js.Normal stripped
     /\ Forall2 strippedFrom definitions stripped)
  /\ (forallb hasTypes definitions = false ->
      omitViewFromTypes definitions = Js.Throw Js.TypeError).
Proof.
  split.
  - intros H.
    assert (exists stripped, omitViewFromTypes definitions = Js.Normal stripped)
      as [stripped Hs].
    { unfold omitViewFromTypes.
      induction definitions as [|d ds IH]; cbn [Js.mapM]; [now eexists|].
      cbn [forallb] in H. apply andb_true_iff in H. destruct H as [Hd Hds].
      unfold hasTypes in Hd. destruct (types d) as [t|]; [|discriminate].
      cbn [Js.member Js.bind]. destruct (IH Hds) as [out ->].
      cbn [Js.bind]. now eexists. }
    exists stripped. split; [exact Hs|].
    now apply omitViewFromTypes_Normal.
  - apply omitViewFromTypes_without_types.
Qed.

Lemma omitViewFromTypes_needs_types_witness :
  (exists stripped,
      omitViewFromTypes
        [mkDeclaration (Some "onPress")
           (Some (mkTypes (Some [mkParameterInfo (Some "view") (Some "ViewRef") None;
                                 mkParameterInfo (Some "handler")
                                                 (Some "() -> Void") None])
                          (Some "unknown")))]
      = Js.Normal stripped
      /\ Forall2 strippedFrom
           [mkDeclaration (Some "onPress")
              (Some (mkTypes (Some [mkParameterInfo (Some "view") (Some "ViewRef") None;
                                    mkParameterInfo (Some "handler")
                                                    (Some "() -> Void") None])
                             (Some "unknown")))]
           stripped)
  /\ omitViewFromTypes [mkDeclaration (Some "color") None]
     = Js.Throw Js.TypeError.
Proof.
  split.
  - apply (proj1 (omitViewFromTypes_needs_types
                    [mkDeclaration (Some "onPress")
                       (Some (mkTypes
                                (Some [mkParameterInfo (Some "view")
                                                       (Some "ViewRef") None;
                                       mkParameterInfo (Some "handler")
                                                       (Some "() -> Void") None])
                                (Some "unknown")))])).
    reflexivity.
  - apply (proj2 (omitViewFromTypes_needs_types
                    [mkDeclaration (Some "color") None])).
    reflexivity.
Defined.

Lemma IO_mapM_Forall2 {A B} (f : A -> IO.t B) (xs : list A) (ys : list B) :
  IO.result (IO.mapM f xs) = Js.Normal ys ->
  Forall2 (fun x y => IO.result (f x) = Js.Normal y) xs ys.
Proof.
  revert ys. induction xs as [|x xs IH]; intros ys H; cbn [IO.mapM] in H.
  - cbn in H. injection H as <-. constructor.
  - apply bind_result in H. destruct H as (y & Hy & H).
    apply bind_result in H. destruct H as (ys' & Hys & H).
    cbn in H. injection H as <-. constructor; [exact Hy | now apply IH].
Qed.

Section Definitions.

Variable cursorinfo : string -> nat -> Js.Completion Types.

Lemma findNamedDefinitionsOfType_named (type : string)
      (moduleDefinition : list Structure) (file : File)
      (found : list Declaration) :
  IO.result (findNamedDefinitionsOfType cursorinfo type moduleDefinition file)
  = Js.Normal found ->
  Forall (fun d => decl_name d <> None) found
  /\ List.length found
     = List.length (filter (fun md => Js.strict_eq (key_name md) type)
                           moduleDefinition).
Proof.
  unfold findNamedDefinitionsOfType. intros H. apply IO_mapM_Forall2 in H.
  induction H as [|x d xs ds Hd _ [IH IHlen]]; [split; [constructor|reflexivity]|].
  split; [|cbn; now rewrite IHlen]. constructor; [|exact IH].
  repeat (apply bind_result in Hd;
          let v := fresh "v" in
          let Hv := fresh "Hv" in
          destruct Hd as (v & Hv & Hd)).
  cbn in Hd. injection Hd as <-. discriminate.
Qed.

Lemma findUnnamedDefinitionsOfType_unnamed (type : string)
      (moduleDefinition : list Structure) (file : File)
      (found : list Declaration) :
  IO.result (findUnnamedDefinitionsOfType cursorinfo type moduleDefinition file)
  = Js.Normal found ->
  Forall (fun d => decl_name d = None) found.
Proof.
  unfold findUnnamedDefinitionsOfType. intros H. apply IO_mapM_Forall2 in H.
  induction H as [|x d xs ds Hd _ IH]; constructor; [|exact IH].
  repeat (apply bind_result in Hd;
          let v := fresh "v" in
          let Hv := fresh "Hv" in
          destruct Hd as (v & Hv & Hd)).
  cbn in Hd. injection Hd as <-. reflexivity.
Qed.

Lemma findAndParseView_view_absent (moduleDefinition : list Structure)
      (file : File) (definition : ModuleDefinition) :
  IO.result (findAndParseView cursorinfo moduleDefinition file)
  = Js.Normal (Some definition) ->
  view definition = Absent.
Proof.
  rewrite findAndParseView_unfold.
  destruct (find _ moduleDefinition) as [viewDefinition|]; [|discriminate].
  destruct (substructure_ _) as [viewModuleDefinition|]; [|discriminate].
  intros H. apply bind_result in H. destruct H as (parsed & _ & H).
  cbn in H. injection H as <-. reflexivity.
Qed.

(** What [parseModuleDefinition] returns has its [view] key set, to null or
    to a definition that has no [view] key itself; its props are the Prop
    definitions of the module with their first parameter and every
    parameter named "view" removed, also outside of a view; its functions,
    async functions, properties and props are named and its lifecycle
    hooks are not. *)
Theorem parseModuleDefinition_shape (moduleDefinition : list Structure)
        (file : File) (parsed : ModuleDefinition) :
  IO.result (parseModuleDefinition cursorinfo moduleDefinition file)
  = Js.Normal parsed ->
  (view parsed = Null
   \/ exists nested, view parsed = Present nested /\ view nested = Absent)
  /\ (exists propDefinitions,
         IO.result (findNamedDefinitionsOfType cursorinfo "Prop"
                                               moduleDefinition file)
         = Js.Normal propDefinitions
         /\ Forall2 strippedFrom propDefinitions (props parsed))
  /\ Forall (fun d => decl_name d <> None)
            (functions parsed ++ asyncFunctions parsed ++ properties parsed
             ++ props parsed)%list
  /\ Forall (fun d => decl_name d = None) (onCreate parsed).
Proof.
  unfold parseModuleDefinition, parseModuleDefinitionWith. intros H.
  apply bind_result in H. destruct H as (names & _ & H).
  apply bind_result in H. destruct H as (fs & Hfs & H).
  apply bind_result in H. destruct H as (afs & Hafs & H).
  apply bind_result in H. destruct H as (evs & _ & H).
  apply bind_result in H. destruct H as (propertyDecls & Hproperties & H).
  apply bind_result in H. destruct H as (propDefinitions & Hprops & H).
  apply bind_result in H. destruct H as (stripped & Hstripped & H).
  apply bind_result in H. destruct H as (hooks & Hhooks & H).
  apply bind_result in H. destruct H as (nested & Hnested & H).
  cbn in H. injection H as <-.
  cbn [view props functions asyncFunctions properties onCreate].
  rewrite lift_result in Hstripped. apply omitViewFromTypes_Normal in Hstripped.
  split; [|split; [|split]].
  - destruct nested as [nested|]; [right | now left].
    exists nested. split; [reflexivity|].
    eapply findAndParseView_view_absent; eassumption.
  - exists propDefinitions. split; assumption.
  - rewrite !Forall_app.
    pose proof (findNamedDefinitionsOfType_named _ _ _ Hfs) as [Hf _].
    pose proof (findNamedDefinitionsOfType_named _ _ _ Hafs) as [Ha _].
    pose proof (findNamedDefinitionsOfType_named _ _ _ Hproperties) as [Hp _].
    pose proof (findNamedDefinitionsOfType_named _ _ _ Hprops) as [Hd _].
    repeat split; try assumption.
    clear - Hstripped Hd.
    induction Hstripped as [|d p ds ps Hdp _ IH]; constructor.
    + inversion Hd; subst. destruct Hdp as [-> _]. assumption.
    + apply IH. now inversion Hd.
  - eapply findUnnamedDefinitionsOfType_unnamed; eassumption.
Qed.

End Definitions.

Definition parsedWithView : ModuleDefinition :=
  mkModuleDefinition None [] [] [] [] (props onPressStripped) []
                     (Present onPressStripped).

Lemma parseModuleDefinition_shape_witness :
  IO.result (parseModuleDefinition noCursorinfo [viewNode; onPressProp] viewFile)
  = Js.Normal parsedWithView
  /\ (view parsedWithView = Null
      \/ exists nested,
          view parsedWithView = Present nested /\ view nested = Absent)
  /\ (exists propDefinitions,
         IO.result (findNamedDefinitionsOfType noCursorinfo "Prop"
                                               [viewNode; onPressProp] viewFile)
         = Js.Normal propDefinitions
         /\ Forall2 strippedFrom propDefinitions (props parsedWithView))
  /\ Forall (fun d => decl_name d <> None)
            (functions parsedWithView ++ asyncFunctions parsedWithView
             ++ properties parsedWithView ++ props parsedWithView)%list
  /\ Forall (fun d => decl_name d = None) (onCreate parsedWithView).
Proof.
  split; [reflexivity|].
  apply (@parseModuleDefinition_shape noCursorinfo [viewNode; onPressProp]
                                      viewFile parsedWithView).
  reflexivity.
Defined.

Lemma result_cases {A} (m : IO.t A) :
  (exists a, IO.result m = Js.Normal a) \/ (exists e, IO.result m = Js.Throw e).
Proof. destruct m as [trace [a|e]]; cbn; eauto. Qed.

(** When the type lookup of a Prop fails, so that the Prop definition has
    no types, [parseModuleDefinition] does not return: it throws (in
    [omitViewFromTypes], if not before). *)
Theorem unresolved_prop_aborts_parse
        (cursorinfo : string -> nat -> Js.Completion Types)
        (moduleDefinition : list Structure) (file : File)
        (propDefinitions : list Declaration) :
  IO.result (findNamedDefinitionsOfType cursorinfo "Prop" moduleDefinition file)
  = Js.Normal propDefinitions ->
  forallb hasTypes propDefinitions = false ->
  exists error,
    IO.result (parseModuleDefinition cursorinfo moduleDefinition file)
    = Js.Throw error.
Proof.
  intros Hprops Hbad.
  destruct (result_cases (parseModuleDefinition cursorinfo moduleDefinition file))
    as [[parsed H]|[error H]]; [exfalso | now exists error].
  unfold parseModuleDefinition, parseModuleDefinitionWith in H.
  apply bind_result in H. destruct H as (names & _ & H).
  apply bind_result in H. destruct H as (fs & _ & H).
  apply bind_result in H. destruct H as (afs & _ & H).
  apply bind_result in H. destruct H as (evs & _ & H).
  apply bind_result in H. destruct H as (propertyDecls & _ & H).
  apply bind_result in H. destruct H as (propDefinitions' & Hprops' & H).
  apply bind_result in H. destruct H as (stripped & Hstripped & _).
  rewrite Hprops in Hprops'. injection Hprops' as <-.
  rewrite lift_result in Hstripped.
  rewrite (omitViewFromTypes_without_types propDefinitions Hbad) in Hstripped.
  discriminate.
Qed.

(** [Prop("onPress", handler)]: the second argument is no closure, so its
    type is looked up, and the lookup fails. *)
Definition referenceProp : Structure :=
  node (Some "Prop") (Some "source.lang.swift.expr.call") None 0 15
    [ leaf None (Some "source.lang.swift.expr.argument") None 5 9;
      leaf None (Some "source.lang.swift.expr.argument") None 16 8 ].

Lemma unresolved_prop_aborts_parse_witness :
  IO.result (findNamedDefinitionsOfType noCursorinfo "Prop" [referenceProp] viewFile)
  = Js.Normal [mkDeclaration (Some "onPress") None]
  /\ exists error,
      IO.result (parseModuleDefinition noCursorinfo [referenceProp] viewFile)
      = Js.Throw error.
Proof.
  split; [reflexivity|].
  apply (@unresolved_prop_aborts_parse
           noCursorinfo [referenceProp] viewFile
           [mkDeclaration (Some "onPress") None]); reflexivity.
Defined.

Section Abort.

Variable execSync : string -> Js.Completion string.
Variable JSON_parse : string -> Js.Completion (option Structure).
Variable readFileSync : string -> Js.Completion string.
Variable cursorinfo : string -> nat -> Js.Completion Types.

Local Abbreviation runFiles :=
  (findModuleDefinitionsInFiles execSync JSON_parse readFileSync cursorinfo).

(** Once the processing of a file throws (the file cannot be read, or its
    module definition makes [parseModuleDefinition] throw), the run is
    over: the files after it are not processed, and the run ends with that
    exception unless an earlier file already threw. *)
Theorem run_stops_at_first_exception
        (path : string) (error : Js.Error) (before after : list string) :
  IO.result (runFiles [path]) = Js.Throw error ->
  runFiles (before ++ path :: after) = runFiles (before ++ [path])
  /\ (IO.result (runFiles before) = Js.Normal tt ->
      IO.result (runFiles (before ++ path :: after)) = Js.Throw error).
Proof.
  intros Hthrow.
  change (path :: after) with ([path] ++ after)%list.
  rewrite !run_app.
  destruct (runFiles [path]) as [t1 r1] eqn:Hone. cbn [IO.result snd] in Hthrow.
  subst r1. unfold IO.bind.
  destruct (runFiles before) as [t0 [[]|e0]]; cbn [IO.result snd].
  - split; [reflexivity|]. intros _. reflexivity.
  - split; [reflexivity|]. discriminate.
Qed.

End Abort.

Definition missingReadFileSync (path : string) : Js.Completion string :=
  if String.eqb path "Missing.swift"
  then Js.Throw (Js.SystemError "ENOENT: no such file or directory")
  else Js.Normal (content viewFile).

Lemma run_stops_at_first_exception_witness :
  findModuleDefinitionsInFiles sampleExecSync sampleJSON_parse
    missingReadFileSync noCursorinfo (["A.swift"] ++ "Missing.swift" :: ["B.swift"])
  = findModuleDefinitionsInFiles sampleExecSync sampleJSON_parse
      missingReadFileSync noCursorinfo (["A.swift"] ++ ["Missing.swift"])
  /\ (IO.result (findModuleDefinitionsInFiles sampleExecSync sampleJSON_parse
                   missingReadFileSync noCursorinfo ["A.swift"])
      = Js.Normal tt ->
      IO.result (findModuleDefinitionsInFiles sampleExecSync sampleJSON_parse
                   missingReadFileSync noCursorinfo
                   (["A.swift"] ++ "Missing.swift" :: ["B.swift"]))
      = Js.Throw (Js.SystemError "ENOENT: no such file or directory")).
Proof.
  apply (@run_stops_at_first_exception
           sampleExecSync sampleJSON_parse missingReadFileSync noCursorinfo
           "Missing.swift" (Js.SystemError "ENOENT: no such file or directory")
           ["A.swift"] ["B.swift"]).
  reflexivity.
Defined.

End StructureReaderFacts.

(** * Writing the mock files

    [printModules] of expo-module-mockgen.js.  The module definitions it
    loops over, the printer of the TypeScript compiler, [path.join] and the
    file system are outside of the program and are parameters; the trace
    records the directories made and the files written. *)

Module Fs.

Inductive Event : Type :=
| mkdir (path : string)
| write (path data : string).

Definition t (A : Type) : Type := (list Event * Js.Completion A)%type.

Definition ret {A} (a : A) : t A := ([], Js.Normal a).

Definition bind {A B} (m : t A) (k : A -> t B) : t B :=
  match m with
  | (trace, Js.Normal a) => let (trace', r) := k a in (trace ++ trace', r)%list
  | (trace, Js.Throw e) => (trace, Js.Throw e)
  end.

Definition lift {A} (c : Js.Completion A) : t A := ([], c).

(** A file-system call: it is recorded when it returns. *)
Definition call (e : Event) (outcome : Js.Completion unit) : t unit :=
  match outcome with
  | Js.Normal _ => ([e], Js.Normal tt)
  | Js.Throw error => ([], Js.Throw error)
  end.

Fixpoint for_of {A} (xs : list A) (f : A -> t unit) : t unit :=
  match xs with
  | [] => ret tt
  | x :: xs' => bind (f x) (fun _ => for_of xs' f)
  end.

End Fs.

Declare Scope fs_scope.
Delimit Scope fs_scope with fs.
Notation "x <- c ;; k" := (Fs.bind c (fun x => k))
  (at level 61, c at next level, right associativity) : fs_scope.
Notation "c ;; k" := (Fs.bind c (fun _ => k))
  (at level 61, right associativity) : fs_scope.

Module PrintModules.
Import Mockgen.
Local Open Scope fs_scope.

(** [m.name + '.ts']; a module definition without Name declaration has
    [name] undefined. *)
Definition fileName (m : ModuleDefinition) : string :=
  match name m with
  | Some name => name
  | None => "undefined"
  end ++ ".ts".

Section Printer.

Variable directoryPath : string.
(** [path.join(...segments)]. *)
Variable path_join : list string -> string.
(** [printer.printList(ts.ListFormat.MultiLine, mock, resultFile)], with the
    name of the source file made for the module. *)
Variable printList : list ts.DeclarationStatement -> string -> string.
(** [fs.mkdirSync(path, { recursive: true })] and
    [fs.writeFileSync(path, data)]. *)
Variable mkdirSync : string -> Js.Completion unit.
Variable writeFileSync : string -> string -> Js.Completion unit.

Definition printModules (modules : list ModuleDefinition) : Fs.t unit :=
  Fs.for_of modules (fun m =>
    let resultFile := fileName m in
    Fs.call (Fs.mkdir (path_join [directoryPath; "mocks"]))
            (mkdirSync (path_join [directoryPath; "mocks"])) ;;
    let filePath := path_join [directoryPath; "mocks"; fileName m] in
    mock <- Fs.lift (getMockForModule m) ;;
    let printedTs := printList mock resultFile in
    Fs.call (Fs.write filePath printedTs) (writeFileSync filePath printedTs)).

End Printer.

End PrintModules.

Module PrintModulesFacts.
Import Mockgen PrintModules.
Local Open Scope fs_scope.

Lemma fs_for_of_app {A} (xs ys : list A) (f : A -> Fs.t unit) :
  Fs.for_of (xs ++ ys) f = (Fs.for_of xs f ;; Fs.for_of ys f).
Proof.
  induction xs as [|x xs IH]; cbn [app Fs.for_of].
  - unfold Fs.bind, Fs.ret. now destruct (Fs.for_of ys f).
  - rewrite IH. unfold Fs.bind.
    destruct (f x) as [t1 [[]|e]]; [|reflexivity].
    destruct (Fs.for_of xs f) as [t2 [[]|e]]; [|reflexivity].
    destruct (Fs.for_of ys f) as [t3 r]. now rewrite app_assoc.
Qed.

Section Printer.

Variable directoryPath : string.
Variable path_join : list string -> string.
Variable printList : list ts.DeclarationStatement -> string -> string.
Variable mkdirSync : string -> Js.Completion unit.
Variable writeFileSync : string -> string -> Js.Completion unit.

Local Abbreviation print :=
  (printModules directoryPath path_join printList mkdirSync writeFileSync).

(** What the loop body does for a module that has a mock. *)
Definition written (m : ModuleDefinition) (mock : list ts.DeclarationStatement)
  : list Fs.Event :=
  [ Fs.mkdir (path_join [directoryPath; "mocks"]);
    Fs.write (path_join [directoryPath; "mocks"; fileName m])
             (printList mock (fileName m)) ].

Hypothesis mkdirSync_returns : forall path, mkdirSync path = Js.Normal tt.
Hypothesis writeFileSync_returns :
  forall path data, writeFileSync path data = Js.Normal tt.

Lemma print_mocked (modules : list ModuleDefinition)
      (mocks : list (list ts.DeclarationStatement)) :
  Forall2 (fun m mock => getMockForModule m = Js.Normal mock) modules mocks ->
  print modules
  = (flat_map (fun '(m, mock) => written m mock) (combine modules mocks),
     Js.Normal tt).
Proof.
  unfold printModules.
  induction 1 as [|m mock modules mocks Hm _ IH]; [reflexivity|].
  cbn [Fs.for_of combine flat_map]. rewrite IH, mkdirSync_returns.
  cbn [Fs.call Fs.bind]. rewrite Hm. cbn [Fs.lift Fs.bind].
  rewrite writeFileSync_returns. reflexivity.
Qed.

(** With a file system that does not fail, [printModules] makes the mocks
    directory and writes one file per module, in order, as long as
    [getMockForModule] returns; at the first module for which it throws,
    the directory is made once more and the run ends with that exception:
    neither that module nor any module after it gets a file. *)
Theorem printModules_writes_until_exception
        (before : list ModuleDefinition)
        (mocks : list (list ts.DeclarationStatement)) :
  Forall2 (fun m mock => getMockForModule m = Js.Normal mock) before mocks ->
  print before
  = (flat_map (fun '(m, mock) => written m mock) (combine before mocks),
     Js.Normal tt)
  /\ forall (m : ModuleDefinition) (after : list ModuleDefinition)
            (error : Js.Error),
      getMockForModule m = Js.Throw error ->
      print (before ++ m :: after)
      = ((flat_map (fun '(m, mock) => written m mock) (combine before mocks)
          ++ [Fs.mkdir (path_join [directoryPath; "mocks"])])%list,
         Js.Throw error).
Proof.
  intros Hmocks. pose proof (print_mocked Hmocks) as Hbefore.
  split; [exact Hbefore|]. intros m after error Hm.
  unfold printModules in *. rewrite fs_for_of_app, Hbefore.
  cbn [Fs.for_of]. rewrite mkdirSync_returns.
  cbn [Fs.call Fs.bind]. rewrite Hm. cbn [Fs.lift Fs.bind].
  now rewrite app_nil_r.
Qed.

End Printer.

Definition sampleJoin (segments : list string) : string :=
  String.concat "/" segments.

Definition samplePrintList (mock : list ts.DeclarationStatement)
           (resultFile : string) : string :=
  "// " ++ resultFile.

Lemma printModules_writes_until_exception_witness :
  printModules "/app" sampleJoin samplePrintList
               (fun _ => Js.Normal tt) (fun _ _ => Js.Normal tt)
               [ModuleFacts.sampleModule]
  = ([Fs.mkdir "/app/mocks"; Fs.write "/app/mocks/Sample.ts" "// Sample.ts"],
     Js.Normal tt)
  /\ forall (m : ModuleDefinition) (after : list ModuleDefinition)
            (error : Js.Error),
      getMockForModule m = Js.Throw error ->
      printModules "/app" sampleJoin samplePrintList
                   (fun _ => Js.Normal tt) (fun _ _ => Js.Normal tt)
                   ([ModuleFacts.sampleModule] ++ m :: after)
      = (([Fs.mkdir "/app/mocks"; Fs.write "/app/mocks/Sample.ts" "// Sample.ts"]
          ++ [Fs.mkdir "/app/mocks"])%list,
         Js.Throw error).
Proof.
  apply (@printModules_writes_until_exception
           "/app" sampleJoin samplePrintList
           (fun _ => Js.Normal tt) (fun _ _ => Js.Normal tt)
           (fun _ => eq_refl) (fun _ _ => eq_refl)
           [ModuleFacts.sampleModule] [ModuleFacts.sampleOutput]).
  repeat constructor.
Defined.

End PrintModulesFacts.

(** * Annotated declarations

    [maybeUnwrapXMLStructs], [maybeWrapArray] and
    [parseXMLAnnotatedDeclarations] work on what [JSON.parse] and the
    compact form of [XML.xml2js] return: values that are undefined, null, a
    boolean, a number, a string, an array or an object. *)

From Stdlib Require Import ZArith.

Module JsValue.

Inductive Value : Type :=
| undefined
| null
| boolean (b : bool)
| number (n : Z)
| string_ (s : string)
| array (items : list Value)
| object (entries : list (string * Value)).

Definition truthy (v : Value) : bool :=
  match v with
  | undefined | null => false
  | boolean b => b
  | number n => negb (Z.eqb n 0)
  | string_ s => negb (String.eqb s "")
  | array _ | object _ => true
  end.

Definition isNullish (v : Value) : bool :=
  match v with
  | undefined | null => true
  | _ => false
  end.

Fixpoint lookup (entries : list (string * Value)) (key : string) : Value :=
  match entries with
  | [] => undefined
  | (k, v) :: entries' => if String.eqb k key then v else lookup entries' key
  end.

(** [v[key]] for a [v] that is not nullish and a key that is no built-in
    member: only an object has it. *)
Definition get (v : Value) (key : string) : Value :=
  match v with
  | object entries => lookup entries key
  | _ => undefined
  end.

(** [v[key]]: a [TypeError] on undefined and null. *)
Definition member (v : Value) (key : string) : Js.Completion Value :=
  if isNullish v then Js.Throw Js.TypeError else Js.Normal (get v key).

(** [v?.[key]]. *)
Definition optional (v : Value) (key : string) : Value :=
  if isNullish v then undefined else get v key.

Fixpoint size (v : Value) : nat :=
  match v with
  | array items => S (list_sum (map size items))
  | object entries => S (list_sum (map (fun '(_, v) => size v) entries))
  | _ => 1
  end.

End JsValue.

Module AnnotatedDeclarations.
Import JsValue.

Equations? maybeUnwrapXMLStructs (type : Value) : Value by wf (size type) lt :=
  maybeUnwrapXMLStructs type with inspect (truthy type) := {
    | exist _ false _ := type;
    | exist _ true _ with type := {
        | string_ s := string_ s;
        | other with inspect (truthy (get other "_text")) := {
            | exist _ true _ := get other "_text";
            | exist _ false _ with inspect (truthy (get other "ref.struct")) := {
                | exist _ true wrapped :=
                    maybeUnwrapXMLStructs (get other "ref.struct");
                | exist _ false _ := other } } } }.
Proof.
  all: try (cbn in wrapped; discriminate).
  apply Nat.lt_succ_r. revert wrapped. clear.
  generalize "ref.struct". intros k.
  induction entries as [|[k' v] es IH]; cbn [lookup map].
  - discriminate.
  - change (list_sum (size v :: map (fun '(_, v0) => size v0) es))
      with (size v + list_sum (map (fun '(_, v0) => size v0) es)).
    destruct (String.eqb k' k); [lia|]. intros H. specialize (IH H). lia.
Defined.

Definition maybeWrapArray (itemOrItems : Value) : Value :=
  if negb (truthy itemOrItems) then null
  else match itemOrItems with
       | array _ => itemOrItems
       | _ => array [itemOrItems]
       end.

Section Parse.

(** [XML.xml2js(xml, { compact: true })]. *)
Variable xml2js : Value -> Js.Completion Value.

Definition parseXMLAnnotatedDeclarations (cursorInfoOutput : Value)
  : Js.Completion Value :=
  Js.bind (member cursorInfoOutput "key.fully_annotated_decl") (fun xml =>
    if negb (truthy xml) then Js.Normal cursorInfoOutput
    else
      Js.bind (xml2js xml) (fun parsed =>
        Js.bind
          (match maybeWrapArray
                   (optional (optional parsed "decl.function.free")
                             "decl.var.parameter") with
           | array items =>
               Js.bind
                 (Js.mapM
                    (fun p =>
                       Js.bind (member p "decl.var.parameter.argument_label")
                         (fun label =>
                       Js.bind (member p "decl.var.parameter.type")
                         (fun type =>
                       Js.Normal
                         (object [("name", maybeUnwrapXMLStructs label);
                                  ("nametype", maybeUnwrapXMLStructs type)]))))
                    items)
                 (fun mapped => Js.Normal (array mapped))
           | _ => Js.Normal (array [])
           end)
          (fun parameters =>
             let returnType :=
               maybeUnwrapXMLStructs
                 (optional (optional parsed "decl.function.free")
                           "decl.function.returntype") in
             Js.Normal (object [("parameters", parameters);
                                ("returnType", returnType)])))).

End Parse.

End AnnotatedDeclarations.

Module AnnotatedDeclarationsFacts.
Import JsValue AnnotatedDeclarations.

(** [Array.isArray(v)]. *)
Definition isArray (v : Value) : bool :=
  match v with
  | array _ => true
  | _ => false
  end.

(** [maybeWrapArray] gives null or an array, whatever it is given: null for
    a falsy value, an array as it is, and any other value as the one item
    of an array.  Wrapping twice is wrapping once. *)
Theorem maybeWrapArray_null_or_array (itemOrItems : Value) :
  (maybeWrapArray itemOrItems = null
   \/ exists items, maybeWrapArray itemOrItems = array items)
  /\ (truthy itemOrItems = false -> maybeWrapArray itemOrItems = null)
  /\ (forall items, maybeWrapArray (array items) = array items)
  /\ (truthy itemOrItems = true -> isArray itemOrItems = false ->
      maybeWrapArray itemOrItems = array [itemOrItems])
  /\ maybeWrapArray (maybeWrapArray itemOrItems) = maybeWrapArray itemOrItems.
Proof.
  unfold maybeWrapArray. split; [|split; [|split; [|split]]].
  - destruct (truthy itemOrItems); cbn [negb]; [|now left].
    right. destruct itemOrItems; eauto.
  - now intros ->.
  - reflexivity.
  - intros -> Harray. cbn [negb].
    destruct itemOrItems; try reflexivity. discriminate.
  - destruct (truthy itemOrItems) eqn:Ht; cbn [negb]; [|reflexivity].
    destruct itemOrItems; reflexivity.
Qed.

(** An empty text is dropped, and a single parameter element, given by the
    XML parser as an object, becomes an array of one item. *)
Lemma maybeWrapArray_null_or_array_witness :
  maybeWrapArray (string_ "") = null
  /\ maybeWrapArray (object [("_text", string_ "Int")])
     = array [object [("_text", string_ "Int")]].
Proof.
  split.
  - apply (proj1 (proj2 (maybeWrapArray_null_or_array (string_ "")))).
    reflexivity.
  - apply (proj1 (proj2 (proj2 (proj2 (maybeWrapArray_null_or_array
                                         (object [("_text", string_ "Int")])))))).
    + reflexivity.
    + reflexivity.
Defined.

Lemma maybeUnwrapXMLStructs_text (entries : list (string * Value)) :
  truthy (lookup entries "_text") = true ->
  maybeUnwrapXMLStructs (object entries) = lookup entries "_text".
Proof.
  intros H. funelim (maybeUnwrapXMLStructs (object entries));
    try discriminate; try reflexivity.
  all: cbn [get] in *; congruence.
Qed.

Lemma maybeUnwrapXMLStructs_wrapped (entries : list (string * Value)) :
  truthy (lookup entries "_text") = false ->
  truthy (lookup entries "ref.struct") = true ->
  maybeUnwrapXMLStructs (object entries)
  = maybeUnwrapXMLStructs (lookup entries "ref.struct").
Proof.
  intros Htext Hwrapped. funelim (maybeUnwrapXMLStructs (object entries));
    try discriminate; try reflexivity.
  all: cbn [get] in *; congruence.
Qed.

(** An element [<ref.struct ...>inner</ref.struct>] in compact form. *)
Definition refStruct (attributes : list (string * Value)) (inner : Value)
  : Value :=
  object [("_attributes", object attributes); ("ref.struct", inner)].

(** [maybeUnwrapXMLStructs] goes through any number of nested [ref.struct]
    elements and returns the text of the innermost element, when that text
    is not empty; a falsy value and a string are returned as they are. *)
Theorem maybeUnwrapXMLStructs_reaches_text
        (attributes : list (string * Value)) (text : string) (n : nat) :
  text <> "" ->
  maybeUnwrapXMLStructs
    (Nat.iter n (refStruct attributes)
              (object [("_attributes", object attributes);
                       ("_text", string_ text)]))
  = string_ text.
Proof.
  intros Hne.
  assert (truthy (string_ text) = true) as Htruthy.
  { cbn. now destruct (String.eqb_spec text ""). }
  induction n as [|n IH].
  - unfold Nat.iter. cbn [nat_rect].
    rewrite maybeUnwrapXMLStructs_text; [reflexivity|exact Htruthy].
  - rewrite Nat.iter_succ. unfold refStruct at 1.
    rewrite maybeUnwrapXMLStructs_wrapped; [exact IH|reflexivity|].
    change (lookup [("_attributes", object attributes);
                    ("ref.struct",
                     Nat.iter n (refStruct attributes)
                       (object [("_attributes", object attributes);
                                ("_text", string_ text)]))] "ref.struct")
      with (Nat.iter n (refStruct attributes)
              (object [("_attributes", object attributes);
                       ("_text", string_ text)])).
    destruct n; [reflexivity|]. rewrite Nat.iter_succ. reflexivity.
Qed.

Lemma maybeUnwrapXMLStructs_reaches_text_witness :
  maybeUnwrapXMLStructs
    (Nat.iter 2 (refStruct [("usr", string_ "s:Si")])
              (object [("_attributes", object [("usr", string_ "s:Si")]);
                       ("_text", string_ "Int")]))
  = string_ "Int".
Proof.
  apply (@maybeUnwrapXMLStructs_reaches_text [("usr", string_ "s:Si")] "Int" 2).
  discriminate.
Defined.

Section Parse.

Variable xml2js : Value -> Js.Completion Value.

(** A cursor-info payload without annotated declaration is returned as it
    is, and the XML parser is not called; on a payload that is null or
    undefined the function throws a [TypeError]. *)
Theorem parseXMLAnnotatedDeclarations_without_declaration (payload : Value) :
  (isNullish payload = true ->
   parseXMLAnnotatedDeclarations xml2js payload = Js.Throw Js.TypeError)
  /\ (isNullish payload = false ->
      truthy (get payload "key.fully_annotated_decl") = false ->
      parseXMLAnnotatedDeclarations xml2js payload = Js.Normal payload).
Proof.
  unfold parseXMLAnnotatedDeclarations, member. split.
  - now intros ->.
  - intros -> Hxml. cbn [Js.bind]. now rewrite Hxml.
Qed.

Definition parameterItems (parsed : Value) : Value :=
  maybeWrapArray (optional (optional parsed "decl.function.free")
                           "decl.var.parameter").

(** When the payload has an annotated declaration and the function returns,
    its result is an object with a [parameters] array and a [returnType]:
    one parameter for a single parameter element, one per element of
    several, none without any.  Each parameter is an object with the keys
    [name] and [nametype] only, so that its [typename] is undefined. *)
Theorem parseXMLAnnotatedDeclarations_parameters (payload result : Value) :
  truthy (get payload "key.fully_annotated_decl") = true ->
  parseXMLAnnotatedDeclarations xml2js payload = Js.Normal result ->
  exists parsed parameters,
    xml2js (get payload "key.fully_annotated_decl") = Js.Normal parsed
    /\ result
       = object [("parameters", array parameters);
                 ("returnType",
                  maybeUnwrapXMLStructs
                    (optional (optional parsed "decl.function.free")
                              "decl.function.returntype"))]
    /\ match parameterItems parsed with
       | array items => List.length parameters = List.length items
       | _ => parameters = []
       end
    /\ Forall (fun p => get p "typename" = undefined
                        /\ exists name nametype,
                            p = object [("name", name); ("nametype", nametype)])
              parameters.
Proof.
  intros Hxml. unfold parseXMLAnnotatedDeclarations, member.
  destruct (isNullish payload) eqn:Hnull.
  { destruct payload; discriminate. }
  cbn [Js.bind]. rewrite Hxml. cbn [negb].
  destruct (xml2js (get payload "key.fully_annotated_decl")) as [parsed|e];
    cbn [Js.bind]; [|discriminate].
  fold (parameterItems parsed).
  destruct (parameterItems parsed) as [| |b|n|s|items|entries] eqn:Hitems;
    cbn [Js.bind];
    try (intros [= <-]; exists parsed, []; rewrite Hitems;
         repeat split; constructor).
  destruct (Js.mapM _ items) as [mapped|e] eqn:Hmapped;
    cbn [Js.bind]; [|discriminate].
  intros [= <-]. exists parsed, mapped. rewrite Hitems.
  split; [reflexivity|]. split; [reflexivity|].
  apply StubFacts.mapM_Forall2 in Hmapped. clear Hitems.
  split.
  - induction Hmapped as [|p q ps qs _ _ IH]; [reflexivity|].
    cbn [List.length]. now rewrite IH.
  - induction Hmapped as [|p q ps qs Hq _ IH]; constructor; [|exact IH].
    destruct (isNullish p); [discriminate|]. cbn [Js.bind] in Hq.
    injection Hq as <-. split; [reflexivity|]. eauto.
Qed.

End Parse.

(** The compact form of a function with the single parameter [a: Int] that
    returns [Int]. *)
Definition intElement : Value :=
  object [("ref.struct",
           object [("_attributes", object [("usr", string_ "s:Si")]);
                   ("_text", string_ "Int")])].

Definition oneParameterDeclaration : Value :=
  object
    [("decl.function.free",
      object
        [("decl.var.parameter",
          object [("decl.var.parameter.argument_label",
                   object [("_text", string_ "a")]);
                  ("decl.var.parameter.type", intElement)]);
         ("decl.function.returntype", intElement)])].

Definition samplePayload : Value :=
  object [("key.offset", number 59%Z);
          ("key.fully_annotated_decl", string_ "<decl.function.free>")].

Definition sampleXml2js (xml : Value) : Js.Completion Value :=
  Js.Normal oneParameterDeclaration.

Definition sampleResult : Value :=
  object [("parameters",
           array [object [("name", string_ "a"); ("nametype", string_ "Int")]]);
          ("returnType", string_ "Int")].

Lemma parseXMLAnnotatedDeclarations_parameters_witness :
  parseXMLAnnotatedDeclarations sampleXml2js samplePayload
  = Js.Normal sampleResult
  /\ exists parsed parameters,
      sampleXml2js (get samplePayload "key.fully_annotated_decl")
      = Js.Normal parsed
      /\ sampleResult
         = object [("parameters", array parameters);
                   ("returnType",
                    maybeUnwrapXMLStructs
                      (optional (optional parsed "decl.function.free")
                                "decl.function.returntype"))]
      /\ match parameterItems parsed with
         | array items => List.length parameters = List.length items
         | _ => parameters = []
         end
      /\ Forall (fun p => get p "typename" = undefined
                          /\ exists name nametype,
                              p = object [("name", name); ("nametype", nametype)])
                parameters.
Proof.
  split; [reflexivity|].
  apply (@parseXMLAnnotatedDeclarations_parameters
           sampleXml2js samplePayload sampleResult); reflexivity.
Defined.

Lemma parseXMLAnnotatedDeclarations_without_declaration_witness :
  parseXMLAnnotatedDeclarations sampleXml2js null = Js.Throw Js.TypeError
  /\ parseXMLAnnotatedDeclarations sampleXml2js
       (object [("key.kind", string_ "source.lang.swift.ref.var.local")])
     = Js.Normal (object [("key.kind", string_ "source.lang.swift.ref.var.local")]).
Proof.
  split.
  - apply (proj1 (parseXMLAnnotatedDeclarations_without_declaration
                    sampleXml2js null)). reflexivity.
  - apply (proj2 (parseXMLAnnotatedDeclarations_without_declaration
                    sampleXml2js
                    (object [("key.kind",
                              string_ "source.lang.swift.ref.var.local")])));
      reflexivity.
Defined.

End AnnotatedDeclarationsFacts.

(** * Reading the declarations of one category *)

Module DeclarationFinderFacts.
Import GetStructure ReaderFacts StructureReaderFacts.
Local Open Scope io_scope.

Definition named (type : string) (md : Structure) : bool :=
  Js.strict_eq (key_name md) type.

(** A node with a child sequence that has a first child. *)
Definition hasFirstChild (d : Structure) : bool :=
  match key_substructure d with
  | Some (_ :: _) => true
  | _ => false
  end.

Definition hasChildren (d : Structure) : bool :=
  match key_substructure d with
  | Some _ => true
  | None => false
  end.

Definition childCount (d : Structure) : nat :=
  match key_substructure d with
  | Some children => List.length children
  | None => 0
  end.

Lemma bind_result_throw {A B} (m : IO.t A) (k : A -> IO.t B) (e : Js.Error) :
  IO.result m = Js.Throw e -> IO.result (IO.bind m k) = Js.Throw e.
Proof. destruct m as [trace [a|e']]; cbn; [discriminate | now intros [= ->]]. Qed.

Lemma bind_result_normal {A B} (m : IO.t A) (k : A -> IO.t B) (a : A) :
  IO.result m = Js.Normal a -> IO.result (IO.bind m k) = IO.result (k a).
Proof.
  destruct m as [trace [a'|e']]; cbn; [|discriminate].
  intros [= ->]. now destruct (k a).
Qed.

Lemma mapM_result_all {A B} (f : A -> IO.t B) (xs : list A) :
  Forall (fun x => exists y, IO.result (f x) = Js.Normal y) xs ->
  exists ys, IO.result (IO.mapM f xs) = Js.Normal ys
             /\ List.length ys = List.length xs.
Proof.
  induction 1 as [|x xs [y Hy] _ (ys & Hys & Hlen)]; cbn [IO.mapM].
  - now exists [].
  - exists (y :: ys). rewrite (bind_result_normal _ _ Hy).
    rewrite (bind_result_normal _ _ Hys). cbn. now rewrite Hlen.
Qed.

Lemma mapM_result_throw {A B} (f : A -> IO.t B) (xs : list A) (e : Js.Error) :
  Forall (fun x => (exists y, IO.result (f x) = Js.Normal y)
                   \/ IO.result (f x) = Js.Throw e) xs ->
  Exists (fun x => IO.result (f x) = Js.Throw e) xs ->
  IO.result (IO.mapM f xs) = Js.Throw e.
Proof.
  induction 1 as [|x xs Hx Hxs IH]; intros Hex; [inversion Hex|].
  cbn [IO.mapM]. destruct Hx as [[y Hy]|Hx].
  - rewrite (bind_result_normal _ _ Hy).
    apply bind_result_throw. apply IH.
    inversion Hex as [? ? Hhead|]; subst; [congruence | assumption].
  - now apply bind_result_throw.
Qed.

Section Finders.

Variable cursorinfo : string -> nat -> Js.Completion Types.

Lemma getTypeFromOffsetObject_returns (offsetObject : option Structure)
      (file : File) :
  exists found,
    IO.result (getTypeFromOffsetObject cursorinfo offsetObject file)
    = Js.Normal found.
Proof.
  unfold getTypeFromOffsetObject. destruct offsetObject as [o|]; [|now eexists].
  destruct (cursorinfo (path file) (key_offset o)); now eexists.
Qed.

Lemma types_of_argument_returns (argument : option Structure) (file : File) :
  exists found,
    IO.result (if hasSubstructure argument
               then IO.lift (parseClosureTypes argument)
               else getTypeFromOffsetObject cursorinfo argument file)
    = Js.Normal found.
Proof.
  destruct (hasSubstructure argument) eqn:Hsub;
    [|apply getTypeFromOffsetObject_returns].
  destruct argument as [o|]; [|discriminate].
  unfold parseClosureTypes. cbn [Js.member Js.bind IO.lift IO.result snd].
  destruct (match key_substructure o with
            | Some substructure => find _ substructure
            | None => None
            end); now eexists.
Qed.

Definition namedCallback (file : File) (d : Structure) : IO.t Declaration :=
  definitionParams <- IO.lift (Js.member (key_substructure d)) ;;
  name <- IO.lift (getIdentifierFromOffsetObject
                     (nth_error definitionParams 0) file) ;;
  types <-
    (if hasSubstructure (nth_error definitionParams 1)
     then IO.lift (parseClosureTypes (nth_error definitionParams 1))
     else getTypeFromOffsetObject cursorinfo (nth_error definitionParams 1) file) ;;
  IO.ret (mkDeclaration (Some name) types).

(** What the reader makes of one node [Function("name", ...)]: the name
    is the identifier read at the first argument, the types are those of
    the second argument, parsed from its closure when it has children and
    looked up otherwise. *)
Definition readsDeclaration (file : File) (d : Structure)
           (declaration : Declaration) : Prop :=
  exists definitionParams first name,
    key_substructure d = Some definitionParams
    /\ nth_error definitionParams 0 = Some first
    /\ getIdentifierFromOffsetObject (Some first) file = Js.Normal name
    /\ decl_name declaration = Some name
    /\ IO.result
         (if hasSubstructure (nth_error definitionParams 1)
          then IO.lift (parseClosureTypes (nth_error definitionParams 1))
          else getTypeFromOffsetObject cursorinfo
                                       (nth_error definitionParams 1) file)
       = Js.Normal (types declaration).

Lemma mapM_result_Forall2 {A B} (f : A -> IO.t B) (P : A -> B -> Prop)
      (xs : list A) :
  Forall (fun x => exists y, IO.result (f x) = Js.Normal y /\ P x y) xs ->
  exists ys, IO.result (IO.mapM f xs) = Js.Normal ys /\ Forall2 P xs ys.
Proof.
  induction 1 as [|x xs (y & Hy & HP) _ (ys & Hys & Hall)]; cbn [IO.mapM].
  - exists []. split; [reflexivity | constructor].
  - exists (y :: ys). rewrite (bind_result_normal _ _ Hy).
    rewrite (bind_result_normal _ _ Hys). split; [reflexivity|].
    now constructor.
Qed.

Lemma namedCallback_result (file : File) (d : Structure) :
  if hasFirstChild d
  then exists declaration,
         IO.result (namedCallback file d) = Js.Normal declaration
         /\ readsDeclaration file d declaration
  else IO.result (namedCallback file d) = Js.Throw Js.TypeError.
Proof.
  unfold hasFirstChild, namedCallback, readsDeclaration.
  destruct (key_substructure d) as [[|first rest]|].
  - erewrite bind_result_normal; [|reflexivity].
    now apply bind_result_throw.
  - erewrite bind_result_normal; [|reflexivity].
    destruct (types_of_argument_returns (nth_error (first :: rest) 1) file)
      as [found Hfound].
    erewrite bind_result_normal; [|reflexivity].
    rewrite (bind_result_normal _ _ Hfound).
    eexists. split; [reflexivity|].
    exists (first :: rest), first. eexists.
    split; [reflexivity|]. split; [reflexivity|]. split; [reflexivity|].
    split; [reflexivity|]. exact Hfound.
  - now apply bind_result_throw.
Qed.

(** [findNamedDefinitionsOfType] returns one declaration per node of the
    category, in the order of the nodes, each read from its node (name from
    the first argument, types from the second), when each of these nodes
    has a child sequence with a first child (the name argument); when one
    of them has not, it throws a [TypeError].  A failing type lookup does
    not make it throw. *)
Theorem findNamedDefinitionsOfType_needs_name_argument
        (type : string) (moduleDefinition : list Structure) (file : File) :
  (forallb hasFirstChild (filter (named type) moduleDefinition) = true ->
   exists found,
     IO.result (findNamedDefinitionsOfType cursorinfo type moduleDefinition file)
     = Js.Normal found
     /\ List.length found = List.length (filter (named type) moduleDefinition)
     /\ Forall2 (readsDeclaration file)
                (filter (named type) moduleDefinition) found)
  /\ (forallb hasFirstChild (filter (named type) moduleDefinition) = false ->
      IO.result (findNamedDefinitionsOfType cursorinfo type moduleDefinition file)
      = Js.Throw Js.TypeError).
Proof.
  unfold findNamedDefinitionsOfType. fold (named type).
  change (fun d : Structure => _) with (namedCallback file).
  set (matching := filter (named type) moduleDefinition). clearbody matching.
  split.
  - intros H.
    destruct (@mapM_result_Forall2 _ _ (namedCallback file)
                                   (readsDeclaration file) matching)
      as (found & Hfound & Hall).
    { apply Forall_forall. intros d Hd.
      rewrite forallb_forall in H. specialize (H d Hd).
      pose proof (namedCallback_result file d) as Hr. now rewrite H in Hr. }
    exists found. split; [exact Hfound|]. split; [|exact Hall].
    symmetry. eapply Forall2_length. exact Hall.
  - intros H. apply mapM_result_throw.
    + apply Forall_forall. intros d _.
      pose proof (namedCallback_result file d) as Hr.
      destruct (hasFirstChild d); [left | now right].
      destruct Hr as (declaration & Hr & _). now exists declaration.
    + apply Exists_exists.
      destruct (forallb hasFirstChild matching) eqn:Hall; [discriminate|].
      clear H. induction matching as [|d ds IH]; [discriminate|].
      cbn [forallb] in Hall. destruct (hasFirstChild d) eqn:Hd.
      * destruct (IH Hall) as (x & Hx & Hthrow). exists x. split; [now right|assumption].
      * exists d. split; [now left|].
        pose proof (namedCallback_result file d) as Hr. now rewrite Hd in Hr.
Qed.

Definition groupCallback (file : File) (d : Structure)
  : IO.t (list EventDeclaration) :=
  definitionParams <- IO.lift (Js.member (key_substructure d)) ;;
  IO.mapM
    (fun d =>
       name <- IO.lift (getIdentifierFromOffsetObject (Some d) file) ;;
       IO.ret (mkEvent name))
    definitionParams.

Lemma groupCallback_result (file : File) (d : Structure) :
  if hasChildren d
  then exists group, IO.result (groupCallback file d) = Js.Normal group
                     /\ List.length group = childCount d
  else IO.result (groupCallback file d) = Js.Throw Js.TypeError.
Proof.
  unfold hasChildren, childCount, groupCallback.
  destruct (key_substructure d) as [children|];
    [|now apply bind_result_throw].
  erewrite bind_result_normal; [|reflexivity].
  apply mapM_result_all. apply Forall_forall. intros c _.
  erewrite bind_result_normal; [|reflexivity]. now eexists.
Qed.

(** [findGroupedDefinitionsOfType] returns one event per child of every
    node of the category, in order, when each of these nodes has a child
    sequence; when one of them has none, it throws a [TypeError]. *)
Theorem findGroupedDefinitionsOfType_counts_children
        (type : string) (moduleDefinition : list Structure) (file : File) :
  (forallb hasChildren (filter (named type) moduleDefinition) = true ->
   exists found,
     IO.result (findGroupedDefinitionsOfType type moduleDefinition file)
     = Js.Normal found
     /\ List.length found
        = list_sum (map childCount (filter (named type) moduleDefinition)))
  /\ (forallb hasChildren (filter (named type) moduleDefinition) = false ->
      IO.result (findGroupedDefinitionsOfType type moduleDefinition file)
      = Js.Throw Js.TypeError).
Proof.
  unfold findGroupedDefinitionsOfType. fold (named type).
  change (fun d : Structure => _ <- _ ;; IO.mapM _ _)
    with (groupCallback file).
  set (matching := filter (named type) moduleDefinition). clearbody matching.
  split.
  - intros H.
    assert (exists groups,
               IO.result (IO.mapM (groupCallback file) matching)
               = Js.Normal groups
               /\ List.length (List.concat groups)
                  = list_sum (map childCount matching)) as (groups & Hg & Hlen).
    { induction matching as [|d ds IH]; cbn [IO.mapM]; [now exists []|].
      cbn [forallb] in H. apply andb_true_iff in H. destruct H as [Hd Hds].
      pose proof (groupCallback_result file d) as Hr. rewrite Hd in Hr.
      destruct Hr as (group & Hgroup & Hcount).
      destruct (IH Hds) as (groups & Hgroups & Hlen).
      exists (group :: groups). rewrite (bind_result_normal _ _ Hgroup).
      rewrite (bind_result_normal _ _ Hgroups). split; [reflexivity|].
      cbn [List.concat map]. rewrite length_app, Hcount, Hlen. reflexivity. }
    rewrite (bind_result_normal _ _ Hg). now eexists.
  - intros H. apply bind_result_throw. apply mapM_result_throw.
    + apply Forall_forall. intros d _.
      pose proof (groupCallback_result file d) as Hr.
      destruct (hasChildren d); [left | now right].
      destruct Hr as (group & Hgroup & _). now exists group.
    + apply Exists_exists.
      induction matching as [|d ds IH]; [discriminate|].
      cbn [forallb] in H. destruct (hasChildren d) eqn:Hd.
      * destruct (IH H) as (x & Hx & Hthrow). exists x.
        split; [now right|assumption].
      * exists d. split; [now left|].
        pose proof (groupCallback_result file d) as Hr. now rewrite Hd in Hr.
Qed.

End Finders.

(** [Function()] without any argument. *)
Definition emptyCall : Structure :=
  node (Some "Function") (Some "source.lang.swift.expr.call") None 0 10 [].

Lemma findNamedDefinitionsOfType_needs_name_argument_witness :
  (exists found,
      IO.result (findNamedDefinitionsOfType noCursorinfo "Prop"
                                            [onPressProp; viewNode; onPressProp] viewFile)
      = Js.Normal found
      /\ List.length found
         = List.length (filter (named "Prop") [onPressProp; viewNode; onPressProp])
      /\ Forall2 (readsDeclaration noCursorinfo viewFile)
                 (filter (named "Prop") [onPressProp; viewNode; onPressProp]) found)
  /\ IO.result (findNamedDefinitionsOfType noCursorinfo "Function"
                                           [onPressProp; emptyCall] viewFile)
     = Js.Throw Js.TypeError.
Proof.
  split.
  - apply (proj1 (findNamedDefinitionsOfType_needs_name_argument
                    noCursorinfo "Prop" [onPressProp; viewNode; onPressProp] viewFile)).
    reflexivity.
  - apply (proj2 (findNamedDefinitionsOfType_needs_name_argument
                    noCursorinfo "Function" [onPressProp; emptyCall] viewFile)).
    reflexivity.
Defined.

(** [Events("onChange", "onFocus")] twice, and [Events] without arguments
    reported without child sequence. *)
Definition eventsPair : Structure :=
  node (Some "Events") (Some "source.lang.swift.expr.call") None 0 30
    [ leaf None (Some "source.lang.swift.expr.argument") None 5 9;
      leaf None (Some "source.lang.swift.expr.argument") None 5 9 ].

Lemma findGroupedDefinitionsOfType_counts_children_witness :
  (exists found,
      IO.result (findGroupedDefinitionsOfType "Events"
                   [eventsPair; onPressProp; eventsPair] viewFile)
      = Js.Normal found
      /\ List.length found
         = list_sum (map childCount
                         (filter (named "Events")
                                 [eventsPair; onPressProp; eventsPair])))
  /\ IO.result (findGroupedDefinitionsOfType "Events"
                  [eventsPair; leaf (Some "Events") None None 0 8] viewFile)
     = Js.Throw Js.TypeError.
Proof.
  split.
  - apply (proj1 (findGroupedDefinitionsOfType_counts_children
                    "Events" [eventsPair; onPressProp; eventsPair] viewFile)).
    reflexivity.
  - apply (proj2 (findGroupedDefinitionsOfType_counts_children
                    "Events" [eventsPair; leaf (Some "Events") None None 0 8]
                    viewFile)).
    reflexivity.
Defined.

End DeclarationFinderFacts.

(** * What a run prints *)

Module RunFacts.
Import GetStructure ReaderFacts StructureReaderFacts.
Local Open Scope io_scope.

(** A computation that prints no module definition. *)
Definition quiet {A} (m : IO.t A) : Prop := printed (IO.trace m) = [].

Lemma quiet_ret {A} (a : A) : quiet (IO.ret a).
Proof. reflexivity. Qed.

Lemma quiet_lift {A} (c : Js.Completion A) : quiet (IO.lift c).
Proof. reflexivity. Qed.

Lemma quiet_bind {A B} (m : IO.t A) (k : A -> IO.t B) :
  quiet m -> (forall a, quiet (k a)) -> quiet (IO.bind m k).
Proof.
  unfold quiet, IO.trace.
  destruct m as [trace [a|e]]; cbn [IO.bind fst]; intros Hm Hk; [|exact Hm].
  specialize (Hk a). destruct (k a) as [trace' r]. cbn [fst] in *.
  now rewrite printed_app, Hm, Hk.
Qed.

Lemma quiet_try_catch {A} (body : IO.t A) (handler : Js.Error -> IO.t A) :
  quiet body -> (forall e, quiet (handler e)) ->
  quiet (IO.try_catch body handler).
Proof.
  unfold quiet, IO.trace.
  destruct body as [trace [a|e]]; cbn [IO.try_catch fst]; intros Hm Hk;
    [exact Hm|].
  specialize (Hk e). destruct (handler e) as [trace' r]. cbn [fst] in *.
  now rewrite printed_app, Hm, Hk.
Qed.

Lemma quiet_mapM {A B} (f : A -> IO.t B) (xs : list A) :
  (forall x, quiet (f x)) -> quiet (IO.mapM f xs).
Proof.
  intros Hf. induction xs as [|x xs IH]; cbn [IO.mapM]; [reflexivity|].
  apply quiet_bind; [apply Hf|]. intros y.
  apply quiet_bind; [exact IH|]. intros ys. reflexivity.
Qed.

Lemma printed_bind_le {A B} (m : IO.t A) (k : A -> IO.t B) (n1 n2 : nat) :
  List.length (printed (IO.trace m)) <= n1 ->
  (forall a, List.length (printed (IO.trace (k a))) <= n2) ->
  List.length (printed (IO.trace (IO.bind m k))) <= n1 + n2.
Proof.
  unfold IO.trace.
  destruct m as [trace [a|e]]; cbn [IO.bind fst]; intros Hm Hk; [|lia].
  specialize (Hk a). destruct (k a) as [trace' r]. cbn [fst] in *.
  rewrite printed_app, length_app. lia.
Qed.

Lemma quiet_le {A} (m : IO.t A) :
  quiet m -> List.length (printed (IO.trace m)) <= 0.
Proof. unfold quiet. now intros ->. Qed.

Lemma quiet_findModuleDefinitionInNode (structure : Structure) :
  quiet (findModuleDefinitionInNode structure).
Proof.
  assert (forall l : list Structure,
             (forall c, In c l -> quiet (findModuleDefinitionInNode c)) ->
             quiet
               ((fix loop (children : list Structure)
                   : IO.t (option (list Structure)) :=
                   match children with
                   | [] => IO.ret None
                   | child :: children' =>
                       result <- findModuleDefinitionInNode child ;;
                       match result with
                       | Some result => IO.ret (Some result)
                       | None => loop children'
                       end
                   end) l)) as Hloop.
  { intros l Hl. induction l as [|c l IH]; [reflexivity|].
    apply quiet_bind; [apply Hl; now left|].
    intros [r|]; [reflexivity|]. apply IH. intros c' Hc'. apply Hl. now right. }
  remember (depth structure) as n eqn:Hn.
  revert structure Hn. induction n as [n IHn] using lt_wf_ind.
  intros structure Hn. subst n.
  destruct structure as [name kind typename offset length sub].
  cbn [findModuleDefinitionInNode key_typename key_substructure].
  destruct (Js.strict_eq typename "ModuleDefinition").
  - destruct sub; reflexivity.
  - destruct sub as [[|child children]|]; [reflexivity| |reflexivity].
    apply (Hloop (child :: children)).
    intros c Hc. apply (IHn (depth c)); [|reflexivity].
    apply (@depth_child
             (mkStructure name kind typename offset length
                          (Some (child :: children)))
             c (child :: children)); [reflexivity|exact Hc].
Qed.

Section Quiet.

Variable execSync : string -> Js.Completion string.
Variable JSON_parse : string -> Js.Completion (option Structure).
Variable readFileSync : string -> Js.Completion string.
Variable cursorinfo : string -> nat -> Js.Completion Types.

Lemma quiet_getStructureFromFile (file : File) :
  quiet (getStructureFromFile execSync JSON_parse file).
Proof.
  unfold getStructureFromFile. apply quiet_try_catch.
  - apply quiet_bind; [apply quiet_lift|]. intros. apply quiet_lift.
  - intros e. apply quiet_bind; reflexivity.
Qed.

Lemma quiet_getTypeFromOffsetObject (o : option Structure) (file : File) :
  quiet (getTypeFromOffsetObject cursorinfo o file).
Proof.
  unfold getTypeFromOffsetObject. destruct o; [|reflexivity].
  apply quiet_try_catch.
  - apply quiet_bind; [apply quiet_lift|]. reflexivity.
  - intros e. apply quiet_bind; reflexivity.
Qed.

Lemma quiet_types_of_argument (o : option Structure) (file : File) :
  quiet (if hasSubstructure o
         then IO.lift (parseClosureTypes o)
         else getTypeFromOffsetObject cursorinfo o file).
Proof.
  destruct (hasSubstructure o);
    [apply quiet_lift | apply quiet_getTypeFromOffsetObject].
Qed.

Lemma quiet_findNamedDefinitionsOfType (type : string)
      (moduleDefinition : list Structure) (file : File) :
  quiet (findNamedDefinitionsOfType cursorinfo type moduleDefinition file).
Proof.
  unfold findNamedDefinitionsOfType. apply quiet_mapM. intros d.
  apply quiet_bind; [apply quiet_lift|]. intros ps.
  apply quiet_bind; [apply quiet_lift|]. intros n.
  apply quiet_bind; [apply quiet_types_of_argument|]. reflexivity.
Qed.

Lemma quiet_findUnnamedDefinitionsOfType (type : string)
      (moduleDefinition : list Structure) (file : File) :
  quiet (findUnnamedDefinitionsOfType cursorinfo type moduleDefinition file).
Proof.
  unfold findUnnamedDefinitionsOfType. apply quiet_mapM. intros d.
  apply quiet_bind; [apply quiet_lift|]. intros ps.
  apply quiet_bind; [apply quiet_types_of_argument|]. reflexivity.
Qed.

Lemma quiet_findGroupedDefinitionsOfType (type : string)
      (moduleDefinition : list Structure) (file : File) :
  quiet (findGroupedDefinitionsOfType type moduleDefinition file).
Proof.
  unfold findGroupedDefinitionsOfType. apply quiet_bind; [|reflexivity].
  apply quiet_mapM. intros d.
  apply quiet_bind; [apply quiet_lift|]. intros ps.
  apply quiet_mapM. intros c. apply quiet_bind; [apply quiet_lift|]. reflexivity.
Qed.

Lemma quiet_parseModuleDefinitionWith
      (parseView : IO.t (option ModuleDefinition))
      (moduleDefinition : list Structure) (file : File) :
  quiet parseView ->
  quiet (parseModuleDefinitionWith cursorinfo parseView moduleDefinition file).
Proof.
  intros Hview. unfold parseModuleDefinitionWith.
  repeat (apply quiet_bind;
          [first [apply quiet_findNamedDefinitionsOfType
                 | apply quiet_findUnnamedDefinitionsOfType
                 | apply quiet_findGroupedDefinitionsOfType
                 | apply quiet_lift
                 | exact Hview]
          | intros ?]).
  reflexivity.
Qed.

Lemma quiet_findAndParseView (moduleDefinition : list Structure) (file : File) :
  quiet (findAndParseView cursorinfo moduleDefinition file).
Proof.
  funelim (findAndParseView cursorinfo moduleDefinition file).
  - reflexivity.
  - apply quiet_bind; [|reflexivity].
    apply quiet_parseModuleDefinitionWith. assumption.
  - apply quiet_bind; reflexivity.
Qed.

Lemma quiet_parseModuleDefinition (moduleDefinition : list Structure)
      (file : File) :
  quiet (parseModuleDefinition cursorinfo moduleDefinition file).
Proof.
  apply quiet_parseModuleDefinitionWith. apply quiet_findAndParseView.
Qed.

(** A run prints at most one module definition per file, whatever the
    files hold. *)
Theorem run_prints_at_most_one_definition_per_file (files : list string) :
  List.length
    (printed
       (IO.trace (findModuleDefinitionsInFiles execSync JSON_parse readFileSync
                                               cursorinfo files)))
  <= List.length files.
Proof.
  unfold findModuleDefinitionsInFiles.
  induction files as [|path files IH]; cbn [IO.for_of]; [cbn; lia|].
  change (List.length (path :: files)) with (1 + List.length files).
  apply printed_bind_le; [|intros _; exact IH].
  change 1 with (0 + (0 + (0 + 1))).
  apply printed_bind_le; [apply quiet_le, quiet_lift|]. intros fileContent.
  apply printed_bind_le; [apply quiet_le, quiet_getStructureFromFile|].
  intros structure.
  apply printed_bind_le.
  - apply quiet_le. destruct structure;
      [apply quiet_findModuleDefinitionInNode | reflexivity].
  - intros [definition|]; [|cbn; lia].
    change 1 with (0 + 1).
    apply printed_bind_le; [apply quiet_le, quiet_parseModuleDefinition|].
    intros parsed. cbn. lia.
Qed.

End Quiet.

End RunFacts.
